(** * FangraphStatsGUI: the selection summary of [gui.py] and the workbook
    export of [excel_export.py]

    Both scripts are glue around pandas, Qt, sqlite3 and the file system.
    The development embeds the scripts' own statements one by one and gives
    the library calls they make a small executable model each (a dataframe
    is a header and a list of rows, a table view is a model, a selection and
    its connected slots, a directory is a finite map from names to entries).

    A Python [float] is a binary64 value: a finite one is kept as the
    rational it stands for, every operation rounds to the nearest such value,
    and the infinities and NaN are values of their own. The order in which
    numpy adds up a column, the way SQLite reads the text of a statement and
    the labels of a dataframe's index are left open: they are variables of
    the sections that embed the code. *)

From Stdlib Require Import QArith Qreduction Qcanon Ascii String.
From stdpp Require Import gmap strings pretty list fin_maps.

Local Open Scope string_scope.

(** ** Python results and exceptions *)

Inductive PyExc :=
| AttributeError | KeyError | IndexError | TypeError | ValueError
| FileNotFoundError | ParserError
| NotADirectoryError | IsADirectoryError | DatabaseError
| InvalidWorksheetName | DuplicateWorksheetName.

Inductive result (A : Type) :=
| Ok (a : A)
| Raise (e : PyExc).
Arguments Ok {A} a.
Arguments Raise {A} e.

Global Instance result_ret : MRet result := λ A a, Ok a.
Global Instance result_bind : MBind result := λ A B f m,
  match m with Ok a => f a | Raise e => Raise e end.

(** A statement sequence over a mutable object of type [S]: the state
    reached when an exception is raised is kept, since whatever was assigned
    before the [raise] stays assigned. *)
Definition Py (S A : Type) : Type := S → result A * S.

Global Instance Py_ret {S} : MRet (Py S) := λ A a s, (Ok a, s).
Global Instance Py_bind {S} : MBind (Py S) := λ A B f m s,
  match m s with
  | (Ok a, s') => f a s'
  | (Raise e, s') => (Raise e, s')
  end.

Definition raise {S A} (e : PyExc) : Py S A := λ s, (Raise e, s).
Definition gets {S A} (f : S → A) : Py S A := λ s, (Ok (f s), s).
Definition modify {S} (f : S → S) : Py S unit := λ s, (Ok tt, f s).
Definition lift {S A} (r : result A) : Py S A := λ s, (r, s).

(** [for x in xs: body x] *)
Fixpoint for_each {S A} (xs : list A) (body : A → Py S unit) : Py S unit :=
  match xs with
  | [] => mret tt
  | x :: xs' => body x ;; for_each xs' body
  end.

(** ** Rounding *)

(** The integer nearest to [n / d], ties to even ([0 <= n]). *)
Definition round_half_even (n : Z) (d : positive) : Z :=
  let q := (n / Z.pos d)%Z in
  let r := (n mod Z.pos d)%Z in
  if (2 * r <? Z.pos d)%Z then q
  else if (Z.pos d <? 2 * r)%Z then (q + 1)%Z
  else if Z.even q then q else (q + 1)%Z.

(** [⌊log2 (n / d)⌋], for positive [n] and [d]. *)
Definition floor_log2 (n d : Z) : Z :=
  let l := (Z.log2 n - Z.log2 d)%Z in
  if (d * 2 ^ Z.max 0 l <=? n * 2 ^ Z.max 0 (- l))%Z then l else (l - 1)%Z.

(** ** pandas *)

Module pd.

Inductive Cell :=
| CNum (q : Q)        (* a number *)
| CStr (s : string)   (* text (object dtype) *)
| CNull.              (* a missing value *)

(** A table: the header and the rows in their stable order. *)
Record DataFrame := { columns : list string; rows : list (list Cell) }.

(** [len(df)] *)
Definition len (df : DataFrame) : nat := length (rows df).

(** A Python float: a binary64 value. A finite one is the rational it
    stands for, in lowest terms (the two zeros are not told apart); the
    others are NaN and the two infinities. *)
Inductive float :=
| FNum (q : Q)
| NaN
| Inf (negative : bool).

(** Rounding to the nearest binary64 value, ties to even: 53 significant
    bits, a last place never below [2^-1074], an infinity from [2^1024]
    on. With [e] the exponent of the last place at the size of [q], the
    value is [m * 2^e] for the integer [m] nearest to [|q| / 2^e]. *)
Definition round64 (q : Q) : float :=
  let r := Qred q in
  let n := Z.abs (Qnum r) in
  let d := Z.pos (Qden r) in
  if (n =? 0)%Z then FNum 0
  else
    let e := Z.max (floor_log2 n d - 52) (-1074) in
    let m := round_half_even (n * 2 ^ Z.max 0 (- e)) (Z.to_pos (d * 2 ^ Z.max 0 e)) in
    if (2 ^ 1024 <=? m * 2 ^ Z.max 0 e)%Z then Inf (Qnum r <? 0)%Z
    else FNum (Qred ((Z.sgn (Qnum r) * m * 2 ^ Z.max 0 e) # Z.to_pos (2 ^ Z.max 0 (- e)))).

(** [x + y] on floats. *)
Definition fadd (x y : float) : float :=
  match x, y with
  | FNum a, FNum b => round64 (a + b)
  | FNum _, Inf s | Inf s, FNum _ => Inf s
  | Inf s, Inf s' => if Bool.eqb s s' then Inf s else NaN
  | NaN, _ | _, NaN => NaN
  end.

(** [x / n] for a float and a count [n >= 1]. *)
Definition fdiv_count (x : float) (n : nat) : float :=
  match x with
  | FNum a => round64 (a / inject_Z (Z.of_nat n))
  | _ => x
  end.

(** One way of adding up: a leaf is an item, a node one rounded
    addition. *)
Inductive sum_tree :=
| leaf (x : float)
| node (l r : sum_tree).

Fixpoint total (t : sum_tree) : float :=
  match t with
  | leaf x => x
  | node l r => fadd (total l) (total r)
  end.

Fixpoint leaves (t : sum_tree) : list float :=
  match t with
  | leaf x => [x]
  | node l r => leaves l ++ leaves r
  end.

(** What is taken for granted of numpy's [sum], whose loops add in an
    order of their own: the result is the total of some tree of additions
    over the items, taken in some order, and any number of zeros (a partial
    sum may start at zero). *)
Definition adds_up (np_sum : list float → float) : Prop :=
  ∀ xs, ∃ t k, leaves t ≡ₚ xs ++ replicate k (FNum 0) ∧ np_sum xs = total t.

(** [df.iloc[idx]] for a list of positions: the rows at those positions,
    in the order of the list; a position past the end raises. *)
Definition iloc (df : DataFrame) (idx : list nat) : result DataFrame :=
  rs ← mapM (λ i, match rows df !! i with
                  | Some r => Ok r
                  | None => Raise IndexError
                  end) idx;
  mret {| columns := columns df; rows := rs |}.

(** The cell of a row under the column at position [pos]. *)
Definition cell_at (pos : nat) (r : list Cell) : Cell := default CNull (r !! pos).

(** [df[name]]: the cells of the column called [name], as a Series. *)
Definition getitem (df : DataFrame) (name : string) : result (list Cell) :=
  match list_find (λ c, c = name) (columns df) with
  | Some (pos, _) => Ok (cell_at pos <$> rows df)
  | None => Raise KeyError
  end.

(** The numbers of a Series, missing values skipped; text has no mean. *)
Fixpoint numbers (s : list Cell) : result (list Q) :=
  match s with
  | [] => Ok []
  | CNum q :: s' => qs ← numbers s'; mret (q :: qs)
  | CNull :: s' => numbers s'
  | CStr _ :: _ => Raise TypeError
  end.

Definition Qsum (qs : list Q) : Q := foldr Qplus 0%Q qs.

(** The values of a numeric Series as floats, zero in the place of a
    missing one. *)
Definition filled (s : list Cell) : list float :=
  (λ c, match c with CNum q => round64 q | _ => FNum 0 end) <$> s.

Section mean.

(** [values.sum()], numpy's sum of an array of floats. *)
Variable np_sum : list float → float.

(** [Series.mean()]: NaN when no value is present; otherwise the float
    sum of the values, missing ones counted as zero, divided by the number
    of values present. *)
Definition mean (s : list Cell) : result float :=
  qs ← numbers s;
  mret (match qs with
        | [] => NaN
        | _ => fdiv_count (np_sum (filled s)) (length qs)
        end).

End mean.

End pd.

(** ** Text formatting *)

Definition nl : string := String (Ascii.ascii_of_nat 10) EmptyString.

(** [str(xs)] for a list of non-negative ints: [[0, 1]]. *)
Fixpoint str_items (xs : list nat) : string :=
  match xs with
  | [] => ""
  | [x] => pretty x
  | x :: xs' => pretty x ++ ", " ++ str_items xs'
  end.
Definition str_list (xs : list nat) : string := "[" ++ str_items xs ++ "]".

Fixpoint zeros (n : nat) : string :=
  match n with
  | O => ""
  | S n' => "0" ++ zeros n'
  end.

(** [s] with zeros before it up to [width] characters. *)
Definition zero_pad (width : nat) (s : string) : string :=
  zeros (width - String.length s) ++ s.

(** ['%f' % x]: six digits after the point; NaN prints as [nan], an
    infinity as [inf] with its sign. *)
Definition format_f (x : pd.float) : string :=
  match x with
  | pd.NaN => "nan"
  | pd.Inf negative => if negative then "-inf" else "inf"
  | pd.FNum q =>
      let m := round_half_even (Z.abs (Qnum q) * 1000000) (Qden q) in
      (if (Qnum q <? 0)%Z then "-" else "")
        ++ pretty (m / 1000000)%Z ++ "." ++ zero_pad 6 (pretty (m mod 1000000)%Z)
  end.

(** ** gui.py *)

Module gui.
Import pd.

(** *** Qt widgets, as far as the window uses them *)

Record QModelIndex := { row : nat; column : nat }.

Global Instance QModelIndex_eq_dec : EqDecision QModelIndex.
Proof. solve_decision. Defined.

(** The one slot the script ever connects. *)
Inductive Slot := slot_selected_rows_changed.

(** A table view: the model it shows ([PandasModel] wraps a dataframe and
    only reads it), the cells selected in its current selection model, and
    the slots connected to that selection model's [selectionChanged]. *)
Record QTableView := {
  model : option DataFrame;
  selectedIndexes : list QModelIndex;
  selectionChanged : list Slot
}.

(** [setModel(m)]: the view gets a new selection model, with nothing
    selected and nothing connected; no signal is emitted. *)
Definition setModel (m : DataFrame) (v : QTableView) : QTableView :=
  {| model := Some m; selectedIndexes := []; selectionChanged := [] |}.

(** [selectionModel().selectionChanged.connect(slot)] *)
Definition connect (s : Slot) (v : QTableView) : QTableView :=
  {| model := model v; selectedIndexes := selectedIndexes v;
     selectionChanged := selectionChanged v ++ [s] |}.

Definition set_selectedIndexes (sel : list QModelIndex) (v : QTableView) : QTableView :=
  {| model := model v; selectedIndexes := sel;
     selectionChanged := selectionChanged v |}.

(** *** The window object *)

(** What an attribute can hold where the script tests its type. *)
Inductive PyObject :=
| a_DataFrame (df : DataFrame)
| an_object.

(** The attributes of a [MainWindow]. An attribute that was never assigned
    is [None] and reading it raises [AttributeError]; [_file] is always
    assigned and holds Python's [None] or a path. *)
Record MainWindow := {
  _file : option string;
  _dataframe : option PyObject;
  _selected_rows : option (list nat);
  _selection_indexes : option (list nat);
  table_widget : QTableView;
  results_widget : string;          (* text of the read-only QTextEdit *)
  status_bar : string;              (* message of the QStatusBar *)
  error_dialog : list string;       (* messages shown by QErrorMessage *)
  stdout : list string              (* lines printed *)
}.

Definition set__file (f : option string) (w : MainWindow) : MainWindow :=
  {| _file := f; _dataframe := _dataframe w; _selected_rows := _selected_rows w;
     _selection_indexes := _selection_indexes w; table_widget := table_widget w;
     results_widget := results_widget w; status_bar := status_bar w;
     error_dialog := error_dialog w; stdout := stdout w |}.

Definition set__dataframe (o : PyObject) (w : MainWindow) : MainWindow :=
  {| _file := _file w; _dataframe := Some o; _selected_rows := _selected_rows w;
     _selection_indexes := _selection_indexes w; table_widget := table_widget w;
     results_widget := results_widget w; status_bar := status_bar w;
     error_dialog := error_dialog w; stdout := stdout w |}.

Definition set__selected_rows (l : list nat) (w : MainWindow) : MainWindow :=
  {| _file := _file w; _dataframe := _dataframe w; _selected_rows := Some l;
     _selection_indexes := _selection_indexes w; table_widget := table_widget w;
     results_widget := results_widget w; status_bar := status_bar w;
     error_dialog := error_dialog w; stdout := stdout w |}.

Definition set__selection_indexes (l : list nat) (w : MainWindow) : MainWindow :=
  {| _file := _file w; _dataframe := _dataframe w; _selected_rows := _selected_rows w;
     _selection_indexes := Some l; table_widget := table_widget w;
     results_widget := results_widget w; status_bar := status_bar w;
     error_dialog := error_dialog w; stdout := stdout w |}.

Definition with_table_widget (f : QTableView → QTableView) (w : MainWindow) : MainWindow :=
  {| _file := _file w; _dataframe := _dataframe w; _selected_rows := _selected_rows w;
     _selection_indexes := _selection_indexes w; table_widget := f (table_widget w);
     results_widget := results_widget w; status_bar := status_bar w;
     error_dialog := error_dialog w; stdout := stdout w |}.

(** [results_widget.setText(text)] *)
Definition setText (text : string) (w : MainWindow) : MainWindow :=
  {| _file := _file w; _dataframe := _dataframe w; _selected_rows := _selected_rows w;
     _selection_indexes := _selection_indexes w; table_widget := table_widget w;
     results_widget := text; status_bar := status_bar w;
     error_dialog := error_dialog w; stdout := stdout w |}.

(** [status_bar.showMessage(text)] *)
Definition status_showMessage (text : string) (w : MainWindow) : MainWindow :=
  {| _file := _file w; _dataframe := _dataframe w; _selected_rows := _selected_rows w;
     _selection_indexes := _selection_indexes w; table_widget := table_widget w;
     results_widget := results_widget w; status_bar := text;
     error_dialog := error_dialog w; stdout := stdout w |}.

(** [QErrorMessage().showMessage(text)] *)
Definition showMessage (text : string) (w : MainWindow) : MainWindow :=
  {| _file := _file w; _dataframe := _dataframe w; _selected_rows := _selected_rows w;
     _selection_indexes := _selection_indexes w; table_widget := table_widget w;
     results_widget := results_widget w; status_bar := status_bar w;
     error_dialog := error_dialog w ++ [text]; stdout := stdout w |}.

Definition write_stdout (line : string) (w : MainWindow) : MainWindow :=
  {| _file := _file w; _dataframe := _dataframe w; _selected_rows := _selected_rows w;
     _selection_indexes := _selection_indexes w; table_widget := table_widget w;
     results_widget := results_widget w; status_bar := status_bar w;
     error_dialog := error_dialog w; stdout := stdout w ++ [line] |}.

Definition print (line : string) : Py MainWindow unit :=
  modify (write_stdout line).

(** [self.attr], for an attribute that may not have been assigned. *)
Definition getattr {A} (attr : MainWindow → option A) : Py MainWindow A :=
  λ w, match attr w with
       | Some v => (Ok v, w)
       | None => (Raise AttributeError, w)
       end.

(** The window as [setupUI] leaves it: an empty table view, the results
    area reading [Results], no attribute of the script's own assigned. *)
Definition setupUI : MainWindow :=
  {| _file := None; _dataframe := None; _selected_rows := None;
     _selection_indexes := None;
     table_widget := {| model := None; selectedIndexes := []; selectionChanged := [] |};
     results_widget := "Results"; status_bar := "";
     error_dialog := []; stdout := [] |}.

Section MainWindow.

(** What [pd.read_csv] returns for each path, and how pandas prints a
    dataframe. *)
Variable read_csv : string → result DataFrame.
Variable str_frame : DataFrame → string.

(** numpy's sum, which [Series.mean()] divides by the count. *)
Variable np_sum : list float → float.

Definition import_data (path : string) : Py MainWindow unit :=
  print "Reading CSV data into pandas dataframe..." ;;
  df ← lift (read_csv path);
  modify (set__dataframe (a_DataFrame df)).

(** The branch taken for a DataFrame also sets the selection mode and keeps
    the selection model in an attribute of its own; neither is read again. *)
Definition load_dataframe : Py MainWindow unit :=
  o ← getattr _dataframe;
  match o with
  | a_DataFrame df =>
      modify (with_table_widget (setModel df)) ;;
      modify (with_table_widget (connect slot_selected_rows_changed))
  | an_object =>
      modify (showMessage "No data loaded!")
  end.

Definition selection : Py MainWindow DataFrame :=
  o ← getattr _dataframe;
  match o with
  | a_DataFrame df =>
      idx ← getattr _selection_indexes;
      lift (iloc df idx)
  | an_object => raise AttributeError
  end.

Definition grp1_avg : Py MainWindow float :=
  sel ← selection;
  s ← lift (getitem sel "Group_1");
  lift (mean np_sum s).

Definition grp2_avg : Py MainWindow float :=
  sel ← selection;
  s ← lift (getitem sel "Group_2");
  lift (mean np_sum s).

Definition display_results (text : string) : Py MainWindow unit :=
  modify (setText text).

(** [list(set(...))] keeps each row number once, in an order of the set's
    own choosing: here the order in which the finite set lists its
    elements. *)
Definition selected_rows_changed : Py MainWindow unit :=
  print "Selection Changed!" ;;
  selection_ ← gets (λ w, selectedIndexes (table_widget w));
  modify (set__selection_indexes
            (elements (list_to_set (row <$> selection_) : gset nat))) ;;
  sel ← selection;
  print (str_frame sel) ;;
  idx ← getattr _selection_indexes;
  modify (status_showMessage ("Selected Rows: " ++ str_list idx)) ;;
  idx ← getattr _selection_indexes;
  print ("Selected Rows: " ++ str_list idx) ;;
  sel ← selection;
  a1 ← grp1_avg;
  a2 ← grp2_avg;
  display_results (str_frame sel ++ nl ++ nl ++ "----Selected Averages----" ++ nl
                   ++ "Average Group 1 : " ++ format_f a1 ++ nl
                   ++ "Average Group 2 : " ++ format_f a2).

(** Emission of [selectionChanged]: every connected slot runs at once. An
    exception leaving a slot ends the run. *)
Definition run_slot (s : Slot) : Py MainWindow unit :=
  match s with
  | slot_selected_rows_changed => selected_rows_changed
  end.

Definition emit_selectionChanged : Py MainWindow unit :=
  slots ← gets (λ w, selectionChanged (table_widget w));
  for_each slots run_slot.

(** [table_widget.clearSelection()]: nothing happens when nothing is
    selected; otherwise the selection is emptied and the change is
    signalled. *)
Definition clearSelection : Py MainWindow unit :=
  sel ← gets (λ w, selectedIndexes (table_widget w));
  match sel with
  | [] => mret tt
  | _ :: _ =>
      modify (with_table_widget (set_selectedIndexes [])) ;;
      emit_selectionChanged
  end.

Definition clear_selection : Py MainWindow unit :=
  modify (set__selected_rows []) ;;
  clearSelection ;;
  display_results "" ;;
  print "Selection Cleared".

(** [import_dialog], given what the file dialog returned: the chosen
    file when it was accepted, nothing when it was dismissed. *)
Definition import_dialog (chosen : option string) : Py MainWindow unit :=
  print "Getting User File Selection..." ;;
  match chosen with
  | Some f =>
      modify (set__file (Some f)) ;;
      import_data f ;;
      load_dataframe ;;
      print ("Loaded: '" ++ f ++ "'")
  | None => print "Nothing Loaded"
  end.

(** The constructor, run on the window [setupUI] has built. *)
Definition __init__ (file : option string) : Py MainWindow unit :=
  modify (set__file file) ;;
  match file with
  | Some f => import_data f ;; load_dataframe
  | None => mret tt
  end ;;
  modify (set__selected_rows []).

(** *** The user's actions, as the event loop delivers them *)

(** The view is set to [SelectRows]: a selected row contributes one
    index for each of its cells. *)
Definition row_cells (m : DataFrame) (r : nat) : list QModelIndex :=
  (λ c, {| row := r; column := c |}) <$> seq 0 (length (columns m)).

(** The user makes [rs] the highlighted rows. A view without a model has
    nothing to select; a selection that does not change is not
    signalled. *)
Definition cells_of (m : DataFrame) (rs : list nat) : list QModelIndex :=
  mjoin (row_cells m <$> filter (λ r, r < len m) (remove_dups rs)).

Definition user_selects (rs : list nat) : Py MainWindow unit := λ w,
  match model (table_widget w) with
  | None => (Ok tt, w)
  | Some m =>
      let cells := cells_of m rs in
      if decide (cells = selectedIndexes (table_widget w)) then (Ok tt, w)
      else (modify (with_table_widget (set_selectedIndexes cells)) ;;
            emit_selectionChanged) w
  end.

Inductive Event :=
| click_import (chosen : option string)
| click_clear
| select_rows (rs : list nat).

Definition dispatch (e : Event) : Py MainWindow unit :=
  match e with
  | click_import chosen => import_dialog chosen
  | click_clear => clear_selection
  | select_rows rs => user_selects rs
  end.

(** The windows a session can show: the one the constructor returns and
    those reached from it by handling events to the end. *)
Inductive reachable : MainWindow → Prop :=
| reachable_init file w :
    __init__ file setupUI = (Ok tt, w) → reachable w
| reachable_step e w w' :
    reachable w → dispatch e w = (Ok tt, w') → reachable w'.

(** The window after a list of events, while none fails. *)
Definition session (file : option string) (es : list Event)
  : result unit * MainWindow :=
  (__init__ file ;; for_each es dispatch) setupUI.

End MainWindow.

(** *** PandasModel: the table model the view reads the dataframe through *)

Module PandasModel.

(** The roles and orientations the methods test for. *)
Inductive ItemDataRole := DisplayRole | EditRole | ToolTipRole.
Inductive Orientation := Horizontal | Vertical.

Section PandasModel.

(** [str(value)] for a value taken out of a frame. *)
Variable str_cell : Cell → string.

(** [str(df.index[i])] for a row [i] of the frame: the text of the row's
    label. [read_csv] labels the rows 0, 1, 2, ... unless the file has one
    more field in its lines than in its header, in which case the first
    field of each line is the label. *)
Variable str_index : DataFrame → nat → string.

(** [df.iloc[r, c]]: the cell at a row and column position; a position
    past the last row or column raises. *)
Definition iloc_cell (df : DataFrame) (r c : nat) : result Cell :=
  match rows df !! r with
  | Some line =>
      if decide (c < length (columns df)) then Ok (cell_at c line)
      else Raise IndexError
  | None => Raise IndexError
  end.

(** An index is [None] when it is the invalid index [QModelIndex()]. The
    counts are returned for the invalid parent only; for any other parent the
    method falls off its end and returns Python's [None]. *)
Definition rowCount (_dataframe : DataFrame) (parent : option QModelIndex) : option nat :=
  match parent with
  | None => Some (len _dataframe)
  | Some _ => None
  end.

Definition columnCount (_dataframe : DataFrame) (parent : option QModelIndex) : option nat :=
  match parent with
  | None => Some (length (columns _dataframe))
  | Some _ => None
  end.

Definition data (_dataframe : DataFrame) (index : option QModelIndex)
    (role : ItemDataRole) : result (option string) :=
  match index with
  | None => Ok None
  | Some ix =>
      match role with
      | DisplayRole =>
          value ← iloc_cell _dataframe (row ix) (column ix);
          mret (Some (str_cell value))
      | _ => Ok None
      end
  end.

Definition headerData (_dataframe : DataFrame) (section : nat)
    (orientation : Orientation) (role : ItemDataRole) : result (option string) :=
  match role with
  | DisplayRole =>
      match orientation with
      | Horizontal =>
          match columns _dataframe !! section with
          | Some name => Ok (Some name)
          | None => Raise IndexError
          end
      | Vertical =>
          if decide (section < len _dataframe)
          then Ok (Some (str_index _dataframe section))
          else Raise IndexError
      end
  | _ => Ok None
  end.

End PandasModel.

End PandasModel.

End gui.

(** ** excel_export.py *)

Module excel_export.
Import pd.

(** *** The working directory *)

Record Sheet := { sheet_name : string; cells : list (list Cell) }.

Inductive Content :=
| Workbook (sheets : list Sheet)                  (* an .xlsx workbook *)
| Database (tables : list (string * DataFrame))   (* a SQLite database, tables
                                                     as [sqlite_master] lists them *)
| Other.                                          (* any other file *)

Inductive Entry :=
| File (c : Content)
| Directory.

(** The script works in one directory throughout: the state is the listing
    of [cwd], and [cwd + '/' + name] is the entry [name] of it. *)
Abbreviation FileSystem := (gmap string Entry).

(** [fnmatch] for patterns made of plain characters and [*]: a [*]
    stands for any run of characters, the empty one included. *)
Fixpoint star (rest : string → bool) (name : string) : bool :=
  rest name
  || match name with
     | EmptyString => false
     | String _ name' => star rest name'
     end.

Fixpoint glob_match (pattern : string) : string → bool :=
  match pattern with
  | EmptyString => λ name, match name with EmptyString => true | _ => false end
  | String c pattern' =>
      if Ascii.eqb c "*"%char then star (glob_match pattern')
      else λ name,
        match name with
        | EmptyString => false
        | String d name' => Ascii.eqb c d && glob_match pattern' name'
        end
  end.

(** [glob(pattern)]: the names in the directory that match. *)
Definition glob (pattern : string) (fs : FileSystem) : list string :=
  filter (λ name, glob_match pattern name = true) (elements (dom fs)).

(** [shutil.rmtree(name)]: removes a directory; a path that is not a
    directory raises. *)
Definition rmtree (name : string) : Py FileSystem unit := λ fs,
  match fs !! name with
  | Some Directory => (Ok tt, delete name fs)
  | Some (File _) => (Raise NotADirectoryError, fs)
  | None => (Raise FileNotFoundError, fs)
  end.

(** *** sqlite3 and the SQL readers *)

(** [sqlite3.connect(name)]: a connection is the name of the file it
    reads. A file that does not exist is created as an empty database; a
    directory cannot be opened. *)
Definition connect (name : string) : Py FileSystem string := λ fs,
  match fs !! name with
  | None => (Ok name, <[name := File (Database [])]> fs)
  | Some (File _) => (Ok name, fs)
  | Some Directory => (Raise DatabaseError, fs)
  end.

Definition tables_of (conn : string) : Py FileSystem (list (string * DataFrame)) :=
  λ fs, match fs !! conn with
        | Some (File (Database tables)) => (Ok tables, fs)
        | _ => (Raise DatabaseError, fs)
        end.

Definition list_tables : string := "SELECT name FROM sqlite_master WHERE type='table'".

(** *** The workbook writer *)

(** [pd.ExcelWriter(path, engine='xlsxwriter')]: the sheets written so
    far, kept in memory until [save]. *)
Record ExcelWriter := { path : string; book : list Sheet }.

(** [str.lower()], for the letters A to Z. *)
Definition lower_char (c : ascii) : ascii :=
  let n := nat_of_ascii c in
  if Nat.leb 65 n && Nat.leb n 90 then ascii_of_nat (n + 32) else c.

Fixpoint lower (s : string) : string :=
  match s with
  | EmptyString => EmptyString
  | String c s' => String (lower_char c) (lower s')
  end.

(** The characters xlsxwriter refuses in a sheet name. *)
Definition invalid_char (c : ascii) : bool :=
  bool_decide (c ∈ ["["; "]"; ":"; "*"; "?"; "/"; "\"]%char).

Fixpoint has_invalid_char (s : string) : bool :=
  match s with
  | EmptyString => false
  | String c s' => invalid_char c || has_invalid_char s'
  end.

Definition starts_with (c : ascii) (s : string) : bool :=
  match s with
  | EmptyString => false
  | String d _ => Ascii.eqb c d
  end.

Fixpoint ends_with (c : ascii) (s : string) : bool :=
  match s with
  | EmptyString => false
  | String d EmptyString => Ascii.eqb c d
  | String _ s' => ends_with c s'
  end.

(** xlsxwriter's check of the name of a sheet to be added, against
    Excel's rules and the sheets the workbook has: the name it will use, an
    empty name standing for the next default name. *)
Definition check_sheetname (book : list Sheet) (sheetname : string) : result string :=
  let sheetname :=
    if decide (sheetname = "") then "Sheet" ++ pretty (S (length book))
    else sheetname in
  if Nat.ltb 31 (String.length sheetname) then Raise InvalidWorksheetName
  else if has_invalid_char sheetname then Raise InvalidWorksheetName
  else if starts_with "'" sheetname || ends_with "'" sheetname
  then Raise InvalidWorksheetName
  else if bool_decide (lower sheetname ∈ (λ sh, lower (sheet_name sh)) <$> book)
  then Raise DuplicateWorksheetName
  else Ok sheetname.

Definition get_worksheet_by_name (book : list Sheet) (name : string)
  : option (nat * Sheet) :=
  list_find (λ sh, sheet_name sh = name) book.

(** Writing lines into a sheet that has cells already: a cell that is
    written replaces the one in its place, a missing value writes
    nothing. *)
Definition write_cell (new old : Cell) : Cell :=
  match new with
  | CNull => old
  | _ => new
  end.

Fixpoint write_line (new old : list Cell) : list Cell :=
  match new, old with
  | [], _ => old
  | _, [] => new
  | c :: new', o :: old' => write_cell c o :: write_line new' old'
  end.

Fixpoint write_cells (new old : list (list Cell)) : list (list Cell) :=
  match new, old with
  | [], _ => old
  | _, [] => new
  | l :: new', o :: old' => write_line l o :: write_cells new' old'
  end.

(** [dft.to_excel(writer, sheet_name=..., index=...)] with the default
    [header=True]: the column names, then the rows; with [index] each line
    is preceded by its row label. A frame of more than [2^20] rows or
    [2^14] columns is refused; the lines go to the sheet of that name when
    the workbook has one, and to a new sheet otherwise, whose name
    xlsxwriter checks. *)
Definition to_excel (dft : DataFrame) (writer : ExcelWriter)
    (sheet_name : string) (index : bool) : result ExcelWriter :=
  if (2 ^ 20 <? Z.of_nat (len dft))%Z || (2 ^ 14 <? Z.of_nat (length (columns dft)))%Z
  then Raise ValueError
  else
    let header := CStr <$> columns dft in
    let lines :=
      if index
      then (CNull :: header)
             :: imap (λ i r, CNum (inject_Z (Z.of_nat i)) :: r) (rows dft)
      else header :: rows dft in
    match get_worksheet_by_name (book writer) sheet_name with
    | Some (i, sheet) =>
        Ok {| path := path writer;
              book := <[i := {| sheet_name := sheet_name;
                                cells := write_cells lines (cells sheet) |}]>
                        (book writer) |}
    | None =>
        name ← check_sheetname (book writer) sheet_name;
        mret {| path := path writer;
                book := book writer ++ [ {| sheet_name := name; cells := lines |} ] |}
    end.

(** [writer.save()]: the workbook replaces whatever file has that name;
    xlsxwriter gives a workbook without sheets one empty sheet. *)
Definition save (writer : ExcelWriter) : Py FileSystem unit := λ fs,
  match fs !! path writer with
  | Some Directory => (Raise IsADirectoryError, fs)
  | _ =>
      let sheets :=
        match book writer with
        | [] => [ {| sheet_name := "Sheet1"; cells := [] |} ]
        | _ => book writer
        end in
      (Ok tt, <[path writer := File (Workbook sheets)]> fs)
  end.

(** *** The script *)

Section script.

(** How SQLite answers a statement other than the listing of the tables,
    on a database that holds [tables]: the frame selected, or the error
    pandas raises. The script makes its statements by appending a table name
    as it is, without quotes, to [SELECT * FROM ]; what the name does to the
    statement is SQLite's business (a name that is a keyword of SQL or
    holds a hyphen is a syntax error, a name with a space in it selects
    under an alias). A statement that begins this way reads and does not
    write. *)
Variable execute : string → list (string * DataFrame) → result DataFrame.

(** [num_days] comes from [compile_db], which is not part of the
    sources at hand: the interval identifiers, as integers. *)
Variable num_days : list Z.

(** [pd.read_sql(sql, conn)] and [pd.read_sql_query(sql, conn)]: the
    listing of the tables is answered from the tables of the database, in
    their order; any other statement is SQLite's to answer. *)
Definition read_sql (sql : string) (conn : string) : Py FileSystem DataFrame :=
  tables ← tables_of conn;
  if decide (sql = list_tables) then
    mret {| columns := ["name"]; rows := (λ t, [CStr t.1]) <$> tables |}
  else lift (execute sql tables).

Definition xlsx_name (day : Z) : string := "fangraph_" ++ pretty day ++ "days.xlsx".
Definition db_name (day : Z) : string := "fangraph_" ++ pretty day ++ "days.db".

(** [for f in glob('fangraph_*days.xlsx'): shutil.rmtree(f)] *)
Definition remove_files : Py FileSystem unit :=
  fs ← gets id;
  for_each (glob "fangraph_*days.xlsx" fs) rmtree.

(** [for table_name in df['name']: ...], threading the writer. *)
Fixpoint table_loop (conn : string) (names : list Cell) (writer : ExcelWriter)
  : Py FileSystem ExcelWriter :=
  match names with
  | [] => mret writer
  | table_name :: names' =>
      match table_name with
      | CStr sheet_name =>
          let SQL := "SELECT * FROM " ++ sheet_name in
          dft ← read_sql SQL conn;
          writer ← lift (to_excel dft writer sheet_name false);
          table_loop conn names' writer
      | _ => raise TypeError
      end
  end.

(** The body of [for day in num_days] (what it prints is left out). *)
Definition export_day (day : Z) : Py FileSystem unit :=
  let filePath := xlsx_name day in
  conn ← connect (db_name day);
  let writer := {| path := filePath; book := [] |} in
  df ← read_sql list_tables conn;
  names ← lift (getitem df "name");
  writer ← table_loop conn names writer;
  save writer.

Definition main : Py FileSystem unit :=
  remove_files ;;
  for_each num_days export_day.

End script.

End excel_export.

(** * Properties *)

(** ** Vocabulary of the specification *)

(** *** The selection summary *)

(** The frame made of the rows of [df] at the positions [idx]. *)
Definition picked (df : pd.DataFrame) (idx : list nat) : pd.DataFrame :=
  {| pd.columns := pd.columns df;
     pd.rows := (λ i, default [] (pd.rows df !! i)) <$> idx |}.

(** The arithmetic mean of [value] over a finite set of row indices. *)
Definition arithmetic_mean (S : gset nat) (value : nat → Q) : Q :=
  (pd.Qsum (value <$> elements S) / inject_Z (Z.of_nat (size S)))%Q.

(** A statement sequence leaves the observation [f] of its object alone,
    whether it returns or raises. *)
Definition keeps {S A B} (f : S → B) (m : Py S A) : Prop :=
  ∀ s, f (m s).2 = f s.

(** The report the selection-changed handler displays. *)
Definition summary_text (frame_text : string) (a1 a2 : pd.float) : string :=
  frame_text ++ nl ++ nl ++ "----Selected Averages----" ++ nl
    ++ "Average Group 1 : " ++ format_f a1 ++ nl
    ++ "Average Group 2 : " ++ format_f a2.

(** The window the handler leaves when every step of it succeeds: [idx] is
    stored, the picked rows and the status line are printed, the report is
    displayed. *)
Definition summary_window (frame_text : string) (a1 a2 : pd.float)
    (idx : list nat) (w : gui.MainWindow) : gui.MainWindow :=
  gui.setText (summary_text frame_text a1 a2)
    (gui.write_stdout ("Selected Rows: " ++ str_list idx)
       (gui.status_showMessage ("Selected Rows: " ++ str_list idx)
          (gui.write_stdout frame_text
             (gui.set__selection_indexes idx
                (gui.write_stdout "Selection Changed!" w))))).

(** The row indices of the cells selected in the view, without repeats. *)
Definition selected_row_set (w : gui.MainWindow) : gset nat :=
  list_to_set (gui.row <$> gui.selectedIndexes (gui.table_widget w)).

(** What a whole run of the summary computes from a frame and a stored
    selection: the picked rows and the two averages. *)
Definition summary_of (np_sum : list pd.float → pd.float)
    (df : pd.DataFrame) (idx : list nat)
  : result (pd.DataFrame * pd.float * pd.float) :=
  sel ← pd.iloc df idx;
  s1 ← pd.getitem sel "Group_1";
  a1 ← pd.mean np_sum s1;
  s2 ← pd.getitem sel "Group_2";
  a2 ← pd.mean np_sum s2;
  mret (sel, a1, a2).

(** The integers [value i] for [i] in [S] add up without rounding in any
    order: their absolute values sum to less than [2^53]. *)
Definition adds_exactly (S : gset nat) (value : nat → Z) : Prop :=
  (foldr Z.add 0 ((λ i, Z.abs (value i)) <$> elements S) < 2 ^ 53)%Z.

(** Adding from left to right, starting at zero: one of the orders a sum
    may take, used where a session is run on concrete numbers. *)
Definition seq_sum (xs : list pd.float) : pd.float := foldl pd.fadd (pd.FNum 0) xs.

(** What the summary operations have no business changing. *)
Definition outside_summary (w : gui.MainWindow) :=
  (gui._file w, gui._dataframe w, gui._selected_rows w, gui.table_widget w,
   gui.error_dialog w).

(** The view a successful [load_dataframe] leaves. *)
Definition loaded_view (df : pd.DataFrame) : gui.QTableView :=
  {| gui.model := Some df; gui.selectedIndexes := [];
     gui.selectionChanged := [gui.slot_selected_rows_changed] |}.

(** The view and the window agree: a view without a model has nothing
    selected; a view with a model shows the loaded dataframe, has the handler
    connected once, selects only cells of rows that exist, and, when anything
    is selected, shows a frame that has both group columns. *)
Definition consistent (w : gui.MainWindow) : Prop :=
  match gui.model (gui.table_widget w) with
  | None => gui.selectedIndexes (gui.table_widget w) = []
  | Some m =>
      gui._dataframe w = Some (gui.a_DataFrame m)
      ∧ gui.selectionChanged (gui.table_widget w) = [gui.slot_selected_rows_changed]
      ∧ Forall (λ ix, gui.row ix < pd.len m) (gui.selectedIndexes (gui.table_widget w))
      ∧ (gui.selectedIndexes (gui.table_widget w) ≠ [] →
         "Group_1" ∈ pd.columns m ∧ "Group_2" ∈ pd.columns m)
  end.

(** *** The scenario of the specification, and a few sessions *)

(** The scenario of the specification: three rows, two group columns. *)
Definition scenario_frame : pd.DataFrame :=
  {| pd.columns := ["Group_1"; "Group_2"];
     pd.rows := [[pd.CNum 1; pd.CNum 10]; [pd.CNum 2; pd.CNum 20]; [pd.CNum 3; pd.CNum 30]] |}.

(** A second file for the scenario, with a single row. *)
Definition one_row_frame : pd.DataFrame :=
  {| pd.columns := ["Group_1"; "Group_2"]; pd.rows := [[pd.CNum 7; pd.CNum 70]] |}.

(** A disk with those two files on it. *)
Definition scenario_disk (path : string) : result pd.DataFrame :=
  if decide (path = "stats.csv") then Ok scenario_frame
  else if decide (path = "one.csv") then Ok one_row_frame
  else if decide (path = "broken.csv") then Raise ParserError
  else Raise FileNotFoundError.

(** The labels of the index [read_csv] gives by default: the row
    numbers. *)
Definition row_number (df : pd.DataFrame) (i : nat) : string := pretty i.

(** A stand-in for pandas' rendering of a frame. *)
Definition row_count_text (df : pd.DataFrame) : string :=
  pretty (pd.len df) ++ " rows".

(** The window after [python3 gui.py -f stats.csv]. *)
Definition scenario_window : gui.MainWindow :=
  (gui.__init__ scenario_disk (Some "stats.csv") gui.setupUI).2.

(** The same session after the user highlighted the last row. *)
Definition last_row_selected : gui.MainWindow :=
  (gui.session scenario_disk row_count_text seq_sum (Some "stats.csv")
     [gui.select_rows [2]]).2.

(** The window after [python3 gui.py], nothing loaded. *)
Definition fresh_window : gui.MainWindow :=
  (gui.__init__ scenario_disk None gui.setupUI).2.

(** The session in which the user highlights the last row of the first
    file and then imports the one-row file. *)
Definition reimported : gui.MainWindow :=
  (gui.session scenario_disk row_count_text seq_sum (Some "stats.csv")
     [gui.select_rows [2]; gui.click_import (Some "one.csv")]).2.

(** The session in which the user highlights the last row of the first
    file, imports the one-row file and presses Clear. *)
Definition reimported_and_cleared : gui.MainWindow :=
  (gui.session scenario_disk row_count_text seq_sum (Some "stats.csv")
     [gui.select_rows [2]; gui.click_import (Some "one.csv"); gui.click_clear]).2.

(** A window holding [df] with [idx] as its stored selection. *)
Definition window_with (df : pd.DataFrame) (idx : list nat) : gui.MainWindow :=
  gui.set__selection_indexes idx (gui.set__dataframe (gui.a_DataFrame df) gui.setupUI).

(** The binary64 values nearest to 0.1, 0.2 and 0.3, and a file whose
    first group column holds them; a file whose first group column holds
    [10^308] twice. *)
Definition tenth : Q := 3602879701896397 # 36028797018963968.
Definition fifth : Q := 3602879701896397 # 18014398509481984.
Definition three_tenths : Q := 5404319552844595 # 18014398509481984.
Definition tenths_frame : pd.DataFrame :=
  {| pd.columns := ["Group_1"; "Group_2"];
     pd.rows := [[pd.CNum tenth; pd.CNum 1]; [pd.CNum fifth; pd.CNum 2];
                 [pd.CNum three_tenths; pd.CNum 3]] |}.
Definition huge : Q := inject_Z (10 ^ 308).
Definition huge_frame : pd.DataFrame :=
  {| pd.columns := ["Group_1"; "Group_2"];
     pd.rows := [[pd.CNum huge; pd.CNum 1]; [pd.CNum huge; pd.CNum 2]] |}.

(** *** The export *)

(** The naming pattern of the output files. *)
Definition output_pattern : string := "fangraph_*days.xlsx".

(** The sheet the specification asks for a table: named after the table,
    the column names in the first line, then every row as it is. *)
Definition sheet_of (t : string * pd.DataFrame) : excel_export.Sheet :=
  {| excel_export.sheet_name := t.1;
     excel_export.cells := (pd.CStr <$> pd.columns t.2) :: pd.rows t.2 |}.





(** A stand-in for SQLite on the statements of the scenario: a table
    named batting, pitching or fielding is read by its name; every other
    statement is refused. *)
Definition scenario_sqlite (sql : string) (tables : list (string * pd.DataFrame))
  : result pd.DataFrame :=
  match list_find (λ t, sql = "SELECT * FROM " ++ t.1
                        ∧ t.1 ∈ ["batting"; "pitching"; "fielding"]) tables with
  | Some (_, t) => Ok t.2
  | None => Raise DatabaseError
  end.

(** A directory before the first export: one database with two tables. *)
Definition batting : pd.DataFrame :=
  {| pd.columns := ["Name"; "AVG"];
     pd.rows := [[pd.CStr "Trout"; pd.CNum (3 # 10)]; [pd.CStr "Judge"; pd.CNull]] |}.
Definition pitching : pd.DataFrame :=
  {| pd.columns := ["Name"; "ERA"]; pd.rows := [[pd.CStr "Cole"; pd.CNum (5 # 2)]] |}.
Definition first_directory : gmap string excel_export.Entry :=
  {[ "fangraph_7days.db" :=
       excel_export.File (excel_export.Database [("batting", batting); ("pitching", pitching)]) ]}.

(** The directory that run leaves, and the same after a table was added to
    the database. *)
Definition after_first_run : gmap string excel_export.Entry :=
  (excel_export.main scenario_sqlite [7%Z] first_directory).2.
Definition before_second_run : gmap string excel_export.Entry :=
  <[ "fangraph_7days.db" :=
       excel_export.File (excel_export.Database
         [("batting", batting); ("pitching", pitching); ("fielding", batting)]) ]>
    after_first_run.

(** A directory in which an output name is taken by a directory. *)
Definition directory_in_the_way : gmap string excel_export.Entry :=
  <[ "fangraph_7days.xlsx" := excel_export.Directory ]> first_directory.


(** The last character of a string. *)
Fixpoint last_char (s : string) : option ascii :=
  match s with
  | EmptyString => None
  | String c EmptyString => Some c
  | String _ s' => last_char s'
  end.

(** *** Relating the state before and after a statement sequence *)

(** Every run of [m], returning or raising, takes a state to one related
    to it by [R]. *)
Definition along {S A} (R : S → S → Prop) (m : Py S A) : Prop :=
  ∀ s, R s (m s).2.

(** Every regular file whose name is not one of [outputs] is still there,
    with the same content. *)
Definition files_kept (outputs : string → Prop)
    (fs fs' : gmap string excel_export.Entry) : Prop :=
  ∀ n c, fs !! n = Some (excel_export.File c) → ¬ outputs n →
         fs' !! n = Some (excel_export.File c).

(** The status line describes the stored selection. *)
Definition status_describes_selection (w : gui.MainWindow) : Prop :=
  match gui._selection_indexes w with
  | None => gui.status_bar w = ""
  | Some idx => gui.status_bar w = "Selected Rows: " ++ str_list idx
  end.

(** What two windows have in common when they differ in what was printed
    only. *)
Definition apart_from_stdout (w : gui.MainWindow) :=
  (gui._file w, gui._dataframe w, gui._selected_rows w, gui._selection_indexes w,
   gui.table_widget w, gui.results_widget w, gui.status_bar w, gui.error_dialog w).

(** The window the handler leaves when an average fails: the selection
    is stored, the picked rows and the status line are printed, and the
    report in the results area is not replaced. *)
Definition interrupted_window (frame_text : string) (idx : list nat)
    (w : gui.MainWindow) : gui.MainWindow :=
  gui.write_stdout ("Selected Rows: " ++ str_list idx)
    (gui.status_showMessage ("Selected Rows: " ++ str_list idx)
       (gui.write_stdout frame_text
          (gui.set__selection_indexes idx
             (gui.write_stdout "Selection Changed!" w)))).

(** The view shows the loaded dataframe, and has no model while there is
    none. *)
Definition shows_dataset (w : gui.MainWindow) : Prop :=
  gui.model (gui.table_widget w)
  = match gui._dataframe w with
    | Some (gui.a_DataFrame df) => Some df
    | _ => None
    end.

(** The results area shows the summary of the rows highlighted in the
    view. *)
Definition report_current (str_frame : pd.DataFrame → string)
    (np_sum : list pd.float → pd.float) (w : gui.MainWindow) : Prop :=
  ∃ m a1 a2,
    gui._dataframe w = Some (gui.a_DataFrame m)
    ∧ gui._selection_indexes w = Some (elements (selected_row_set w))
    ∧ summary_of np_sum m (elements (selected_row_set w))
      = Ok (picked m (elements (selected_row_set w)), a1, a2)
    ∧ gui.results_widget w
      = summary_text (str_frame (picked m (elements (selected_row_set w)))) a1 a2.

(** No error dialog has been shown, and [_dataframe] holds nothing but a
    DataFrame. *)
Definition quiet (w : gui.MainWindow) : Prop :=
  gui.error_dialog w = [] ∧ gui._dataframe w ≠ Some gui.an_object.

(** A file without the first group column, and the window that shows it
    with its only row highlighted. *)
Definition names_frame : pd.DataFrame :=
  {| pd.columns := ["Name"; "Group_2"]; pd.rows := [[pd.CStr "Trout"; pd.CNum 4]] |}.
Definition names_disk (path : string) : result pd.DataFrame := Ok names_frame.
Definition names_window : gui.MainWindow :=
  gui.with_table_widget (gui.set_selectedIndexes (gui.cells_of names_frame [0]))
    (gui.__init__ names_disk (Some "names.csv") gui.setupUI).2.

(** ** Unfolding statement sequences *)

Ltac py_unfold :=
  unfold mbind, mret, Py_bind, Py_ret, result_bind, result_ret,
    lift, gets, modify, raise, gui.getattr in *.
Ltac py_simpl := repeat (py_unfold; simpl in *).

(** ** Floats *)

Section float_facts.
Import pd.

Lemma Qred_inject_Z z : Qred (inject_Z z) = inject_Z z.
Proof. apply Qred_identity. simpl. apply Z.gcd_1_r. Qed.

(** Rationals that are equal round to the same float. *)
Lemma round64_Qeq q q' : (q == q')%Q → round64 q = round64 q'.
Proof. intros Heq. unfold round64. by rewrite (Qred_complete _ _ Heq). Qed.

Lemma round_half_even_1 n : round_half_even n 1 = n.
Proof. unfold round_half_even. by rewrite Z.div_1_r, Z.mod_1_r. Qed.

(** An integer below [2^53] is a float: rounding leaves it as it is. *)
Lemma round64_Z z : (Z.abs z < 2 ^ 53)%Z → round64 (inject_Z z) = FNum (inject_Z z).
Proof.
  intros Hz. unfold round64. rewrite Qred_inject_Z.
  change (Qnum (inject_Z z)) with z. change (Qden (inject_Z z)) with 1%positive.
  destruct (Z.eqb_spec (Z.abs z) 0) as [H0|Hn0].
  { by apply Z.abs_0_iff in H0 as ->. }
  pose proof (Z.abs_nonneg z) as Hpos.
  pose proof (Z.log2_nonneg (Z.abs z)) as Hlog.
  assert (Z.log2 (Z.abs z) < 53)%Z as Hlog' by (apply Z.log2_lt_pow2; lia).
  assert (floor_log2 (Z.abs z) 1 = Z.log2 (Z.abs z)) as ->.
  { unfold floor_log2. change (Z.log2 1) with 0%Z. rewrite Z.sub_0_r.
    rewrite (Z.max_r 0 (Z.log2 _)), (Z.max_l 0 (- Z.log2 _)) by lia.
    rewrite Z.pow_0_r, Z.mul_1_l, Z.mul_1_r.
    destruct (Z.leb_spec (2 ^ Z.log2 (Z.abs z)) (Z.abs z)) as [|Hlt]; [done|].
    pose proof (Z.log2_spec (Z.abs z)). lia. }
  set (k := (52 - Z.log2 (Z.abs z))%Z).
  assert (0 <= k <= 52)%Z as Hk by (unfold k; lia).
  assert (Z.max (Z.log2 (Z.abs z) - 52) (-1074) = - k)%Z as -> by (unfold k; lia).
  rewrite Z.opp_involutive, (Z.max_r 0 k), (Z.max_l 0 (- k)) by lia.
  rewrite Z.pow_0_r, !Z.mul_1_r. change (Z.to_pos 1) with 1%positive.
  rewrite round_half_even_1.
  assert (0 < 2 ^ k)%Z as Hpow by (apply Z.pow_pos_nonneg; lia).
  assert (2 ^ k <= 2 ^ 52)%Z as Hpow' by (apply Z.pow_le_mono_r; lia).
  destruct (Z.leb_spec (2 ^ 1024) (Z.abs z * 2 ^ k)) as [Hbig|_].
  { exfalso.
    assert (Z.abs z * 2 ^ k < 2 ^ 53 * 2 ^ 52)%Z by nia.
    assert (2 ^ 53 * 2 ^ 52 <= 2 ^ 1024)%Z.
    { rewrite <- Z.pow_add_r by lia. apply Z.pow_le_mono_r; lia. }
    lia. }
  f_equal. rewrite <- (Qred_inject_Z z). apply Qred_complete.
  unfold Qeq. simpl. rewrite Z2Pos.id by done.
  rewrite Z.mul_1_r. pose proof (Z.sgn_abs z). nia.
Qed.

Lemma Zsum_app (xs ys : list Z) :
  foldr Z.add 0%Z (xs ++ ys) = (foldr Z.add 0 xs + foldr Z.add 0 ys)%Z.
Proof. induction xs as [|x xs IH]; simpl; lia. Qed.

Lemma Zsum_Permutation (xs ys : list Z) :
  xs ≡ₚ ys → foldr Z.add 0%Z xs = foldr Z.add 0%Z ys.
Proof. induction 1; simpl; lia. Qed.

Lemma Zsum_abs (xs : list Z) :
  (Z.abs (foldr Z.add 0 xs) <= foldr Z.add 0 (Z.abs <$> xs))%Z.
Proof.
  induction xs as [|x xs IH]; [done|]. rewrite fmap_cons. cbn [foldr]. lia.
Qed.

Lemma Zsum_abs_nonneg (xs : list Z) : (0 <= foldr Z.add 0 (Z.abs <$> xs))%Z.
Proof.
  induction xs as [|x xs IH]; [done|]. rewrite fmap_cons. cbn [foldr]. lia.
Qed.

Lemma Zsum_replicate_0 k : foldr Z.add 0%Z (replicate k 0%Z) = 0%Z.
Proof. induction k as [|k IH]; simpl; lia. Qed.

(** Integers whose absolute values stay below [2^53] in total add up
    without rounding, whatever the tree of additions. *)
Lemma total_integers t (zs : list Z) :
  leaves t = (λ z, FNum (inject_Z z)) <$> zs →
  (foldr Z.add 0 (Z.abs <$> zs) < 2 ^ 53)%Z →
  total t = FNum (inject_Z (foldr Z.add 0%Z zs)).
Proof.
  revert zs. induction t as [x|l IHl r IHr]; intros zs Hleaves Hbound.
  - destruct zs as [|z [|z' zs]]; [done| |done].
    injection Hleaves as ->. simpl. by rewrite Z.add_0_r.
  - simpl in Hleaves. symmetry in Hleaves.
    apply fmap_app_inv in Hleaves as (zs1 & zs2 & Hl & Hr & ->).
    rewrite fmap_app, Zsum_app in Hbound.
    pose proof (Zsum_abs_nonneg zs1). pose proof (Zsum_abs_nonneg zs2).
    pose proof (Zsum_abs zs1). pose proof (Zsum_abs zs2).
    simpl. rewrite (IHl zs1), (IHr zs2) by (done || lia).
    rewrite Zsum_app. unfold fadd.
    rewrite <- inject_Z_plus. apply round64_Z. lia.
Qed.

Lemma total_integers_any_order np_sum (zs : list Z) :
  adds_up np_sum →
  (foldr Z.add 0 (Z.abs <$> zs) < 2 ^ 53)%Z →
  np_sum ((λ z, FNum (inject_Z z)) <$> zs) = FNum (inject_Z (foldr Z.add 0%Z zs)).
Proof.
  intros Hsum Hbound.
  destruct (Hsum ((λ z, FNum (inject_Z z)) <$> zs)) as (t & k & Hperm & ->).
  assert (leaves t ≡ₚ map (λ z, FNum (inject_Z z)) (zs ++ replicate k 0%Z)) as Hperm'.
  { rewrite Hperm. change (map ?f ?l) with (f <$> l).
    by rewrite fmap_app, fmap_replicate. }
  apply Permutation_map_inv in Hperm' as (zs' & Hleaves & Hzs).
  rewrite (total_integers t zs' Hleaves).
  - by rewrite <- (Zsum_Permutation _ _ Hzs), Zsum_app, Zsum_replicate_0, Z.add_0_r.
  - rewrite <- (Zsum_Permutation _ _ (fmap_Permutation Z.abs _ _ Hzs)).
    rewrite fmap_app, Zsum_app, fmap_replicate. simpl Z.abs.
    rewrite Zsum_replicate_0. lia.
Qed.

(** Adding from left to right is one way of adding up. *)
Lemma seq_sum_adds_up : adds_up seq_sum.
Proof.
  intros xs. unfold seq_sum.
  assert (∀ t0, ∃ t, leaves t = (leaves t0 ++ xs)%list
                     ∧ total t = foldl fadd (total t0) xs) as Hfold.
  { induction xs as [|x xs IH]; intros t0.
    - exists t0. by rewrite app_nil_r.
    - destruct (IH (node t0 (leaf x))) as (t & Hleaves & Htotal).
      exists t. simpl in *. by rewrite Hleaves, <- app_assoc. }
  destruct (Hfold (leaf (FNum 0))) as (t & Hleaves & Htotal).
  exists t, 1. rewrite Hleaves. split; [|done].
  simpl. by rewrite Permutation_cons_append.
Qed.

End float_facts.

(** ** pandas *)

Section pandas_facts.
Import pd.
Variable np_sum : list float → float.

Lemma mapM_Ok {A B} (f : A → result B) (g : A → B) (l : list A) :
  Forall (λ x, f x = Ok (g x)) l → mapM f l = Ok (g <$> l).
Proof.
  induction 1 as [|x l Hx _ IH]; [done|].
  simpl. unfold mbind, result_bind at 1. rewrite Hx.
  unfold mbind, result_bind at 1. by rewrite IH.
Qed.

Lemma iloc_in_range df idx :
  Forall (λ i, i < len df) idx → iloc df idx = Ok (picked df idx).
Proof.
  intros Hidx. unfold iloc.
  rewrite (mapM_Ok _ (λ i, default [] (rows df !! i))); [done|].
  eapply Forall_impl; [exact Hidx|]. intros i Hi. simpl in Hi.
  destruct (lookup_lt_is_Some_2 (rows df) i Hi) as [r ->]. done.
Qed.

Lemma iloc_out_of_range df idx :
  ¬ Forall (λ i, i < len df) idx → iloc df idx = Raise IndexError.
Proof.
  intros Hidx. unfold iloc.
  assert (mapM (λ i, match rows df !! i with
                     | Some r => Ok r
                     | None => Raise IndexError
                     end) idx = Raise IndexError) as ->; [|done].
  induction idx as [|i idx IH]; [by destruct Hidx|].
  simpl. unfold mbind, result_bind at 1.
  destruct (rows df !! i) as [r|] eqn:Hr; [|done].
  unfold mbind, result_bind at 1. rewrite IH; [done|].
  intros Hrest. apply Hidx. constructor; [|done].
  by eapply lookup_lt_Some.
Qed.

Lemma numbers_CNum qs : numbers (CNum <$> qs) = Ok qs.
Proof.
  induction qs as [|q qs IH]; [done|].
  rewrite fmap_cons. cbn [numbers]. by rewrite IH.
Qed.

Lemma Qsum_Permutation l1 l2 : l1 ≡ₚ l2 → (Qsum l1 == Qsum l2)%Q.
Proof.
  induction 1 as [|x l1 l2 _ IH|x y l|l1 l2 l3 _ IH1 _ IH2]; simpl.
  - reflexivity.
  - by rewrite IH.
  - ring.
  - by rewrite IH1.
Qed.

(** A column of numbers, read off a frame and off a selection of it. *)
Lemma getitem_picked df name v idx :
  getitem df name = Ok (CNum <$> v) →
  Forall (λ i, i < len df) idx →
  getitem (picked df idx) name = Ok (CNum <$> ((λ i, nth i v 0%Q) <$> idx)).
Proof.
  unfold getitem. simpl. intros Hcol Hidx.
  destruct (list_find _ (columns df)) as [[pos c]|]; [|done].
  injection Hcol as Hcol. f_equal.
  rewrite <- !list_fmap_compose. apply Forall_fmap_ext.
  eapply Forall_impl; [exact Hidx|]. intros i Hi. simpl in *.
  destruct (lookup_lt_is_Some_2 (rows df) i Hi) as [r Hr].
  rewrite Hr. simpl.
  assert ((cell_at pos <$> rows df) !! i = (CNum <$> v) !! i) as Hi' by by rewrite Hcol.
  rewrite !list_lookup_fmap, Hr in Hi'. simpl in Hi'.
  destruct (v !! i) as [q|] eqn:Hq; [|done].
  injection Hi' as ->. f_equal. symmetry. by apply nth_lookup_Some with (d := 0%Q).
Qed.

Lemma filled_CNum qs : filled (CNum <$> qs) = round64 <$> qs.
Proof. unfold filled. rewrite <- list_fmap_compose. by apply list_fmap_ext. Qed.

(** The mean of a column of numbers over a selection: the float sum of
    the selected values, divided by their number. *)
Lemma mean_of_selection df name v idx (S : gset nat) :
  getitem df name = Ok (CNum <$> v) →
  idx ≡ₚ elements S →
  S ≠ ∅ →
  (∀ i, i ∈ S → i < len df) →
  (sel ← iloc df idx; s ← getitem sel name; mean np_sum s)
  = Ok (fdiv_count (np_sum (round64 <$> ((λ i, nth i v 0%Q) <$> idx))) (size S)).
Proof.
  intros Hcol Hperm Hne Hvalid.
  assert (Forall (λ i, i < len df) idx) as Hidx.
  { apply Forall_forall. intros i Hi. apply Hvalid.
    apply elem_of_elements. by rewrite <- Hperm. }
  rewrite (iloc_in_range _ _ Hidx).
  unfold mbind, result_bind at 1.
  rewrite (getitem_picked _ _ _ _ Hcol Hidx).
  unfold mbind, result_bind at 1.
  unfold mean. rewrite numbers_CNum, filled_CNum.
  unfold mbind, result_bind, mret, result_ret.
  assert (size S = length idx) as ->.
  { unfold size, set_size. simpl. by rewrite <- Hperm. }
  destruct idx as [|i idx].
  { exfalso. apply Hne, leibniz_equiv, elements_empty_inv.
    by apply Permutation_nil. }
  by rewrite length_fmap.
Qed.

Lemma Qsum_inject_Z (zs : list Z) :
  (Qsum (inject_Z <$> zs) == inject_Z (foldr Z.add 0%Z zs))%Q.
Proof.
  induction zs as [|z zs IH]; simpl; [reflexivity|].
  by rewrite IH, inject_Z_plus.
Qed.

(** When the selected values are integers that add up exactly, that is
    the arithmetic mean, rounded once. *)
Lemma mean_of_integers df name v idx (S : gset nat) (z : nat → Z) :
  adds_up np_sum →
  getitem df name = Ok (CNum <$> v) →
  idx ≡ₚ elements S →
  S ≠ ∅ →
  (∀ i, i ∈ S → i < len df) →
  (∀ i, i ∈ S → nth i v 0%Q = inject_Z (z i)) →
  adds_exactly S z →
  (sel ← iloc df idx; s ← getitem sel name; mean np_sum s)
  = Ok (round64 (arithmetic_mean S (λ i, nth i v 0%Q))).
Proof.
  intros Hsum Hcol Hperm Hne Hvalid Hint Hexact.
  rewrite (mean_of_selection _ _ _ _ _ Hcol Hperm Hne Hvalid). f_equal.
  assert ((λ i, nth i v 0%Q) <$> idx = inject_Z <$> (z <$> idx)) as Hvalues.
  { rewrite <- list_fmap_compose. apply Forall_fmap_ext, Forall_forall.
    intros i Hi. apply Hint, elem_of_elements. by rewrite <- Hperm. }
  assert (z <$> idx ≡ₚ z <$> elements S) as Hz by by apply fmap_Permutation.
  assert (foldr Z.add 0 (Z.abs <$> (z <$> idx)) < 2 ^ 53)%Z as Hbound.
  { rewrite (Zsum_Permutation _ _ (fmap_Permutation Z.abs _ _ Hz)).
    by rewrite <- list_fmap_compose. }
  assert (Forall (λ x, Z.abs x < 2 ^ 53)%Z (z <$> idx)) as Hsmall.
  { clear -Hbound. induction (z <$> idx) as [|x xs IH]; [done|].
    rewrite fmap_cons in Hbound. cbn [foldr] in Hbound.
    pose proof (Zsum_abs_nonneg xs).
    constructor; [lia|]. apply IH. lia. }
  rewrite Hvalues.
  assert (round64 <$> (inject_Z <$> (z <$> idx))
          = (λ x, FNum (inject_Z x)) <$> (z <$> idx)) as ->.
  { rewrite <- list_fmap_compose. apply Forall_fmap_ext.
    eapply Forall_impl; [exact Hsmall|]. intros x Hx. by apply round64_Z. }
  rewrite (total_integers_any_order np_sum _ Hsum Hbound).
  unfold fdiv_count. apply round64_Qeq. unfold arithmetic_mean.
  apply Qmult_comp; [|reflexivity].
  rewrite <- Qsum_inject_Z.
  assert ((λ i, nth i v 0%Q) <$> elements S = inject_Z <$> (z <$> elements S)) as ->.
  { rewrite <- list_fmap_compose. apply Forall_fmap_ext, Forall_forall.
    intros i Hi. by apply Hint, elem_of_elements. }
  apply Qsum_Permutation. by apply fmap_Permutation.
Qed.

(** [df[name]] succeeds exactly when the frame has a column [name],
    and fails with [KeyError] otherwise. *)
Lemma getitem_Ok df name : name ∈ columns df → ∃ s, getitem df name = Ok s.
Proof.
  intros Hin. unfold getitem.
  destruct (list_find_elem_of (λ c, c = name) (columns df) name Hin eq_refl)
    as [[pos c] ->].
  eauto.
Qed.

Lemma getitem_Ok_inv df name s : getitem df name = Ok s → name ∈ columns df.
Proof.
  unfold getitem.
  destruct (list_find _ _) as [[pos c]|] eqn:Hfind; [|done].
  intros _. apply list_find_Some in Hfind as (Hpos & -> & _).
  by eapply list_elem_of_lookup_2.
Qed.

Lemma getitem_Raise df name e : getitem df name = Raise e → e = KeyError.
Proof. unfold getitem. destruct (list_find _ _) as [[??]|]; congruence. Qed.

Lemma numbers_Raise s e : numbers s = Raise e → e = TypeError.
Proof.
  induction s as [|[q|t|] s IH]; simpl; [done| |congruence|done].
  destruct (numbers s); simpl; [done|]. intros [= <-]. by apply IH.
Qed.

Lemma mean_Raise s e : mean np_sum s = Raise e → e = TypeError.
Proof.
  unfold mean. destruct (numbers s) eqn:Hs; simpl; [done|].
  intros [= <-]. by eapply numbers_Raise.
Qed.

Lemma iloc_columns df idx sel : iloc df idx = Ok sel → columns sel = columns df.
Proof.
  unfold iloc. destruct (mapM _ idx); simpl; [|done]. by intros [= <-].
Qed.

(** A summary that completes was computed on a frame with both group
    columns. *)
Lemma summary_of_Ok_columns df idx x :
  summary_of np_sum df idx = Ok x →
  "Group_1" ∈ columns df ∧ "Group_2" ∈ columns df.
Proof.
  unfold summary_of.
  destruct (iloc df idx) as [sel|] eqn:Hsel; simpl; [|done].
  apply iloc_columns in Hsel as <-.
  destruct (getitem sel "Group_1") as [s1|] eqn:H1; simpl; [|done].
  destruct (mean np_sum s1); simpl; [|done].
  destruct (getitem sel "Group_2") as [s2|] eqn:H2; simpl; [|done].
  intros _. eauto using getitem_Ok_inv.
Qed.

(** With positions in range the summary never fails on an index. *)
Lemma summary_of_in_range df idx :
  Forall (λ i, i < len df) idx → summary_of np_sum df idx ≠ Raise IndexError.
Proof.
  intros Hidx. unfold summary_of. rewrite (iloc_in_range _ _ Hidx). simpl.
  destruct (getitem _ "Group_1") as [s1|e] eqn:H1; simpl;
    [|by apply getitem_Raise in H1 as ->].
  destruct (mean np_sum s1) as [a1|e] eqn:Hm1; simpl;
    [|by apply mean_Raise in Hm1 as ->].
  destruct (getitem _ "Group_2") as [s2|e] eqn:H2; simpl;
    [|by apply getitem_Raise in H2 as ->].
  destruct (mean np_sum s2) as [a2|e] eqn:Hm2; simpl;
    [|by apply mean_Raise in Hm2 as ->].
  done.
Qed.

(** The summary of no rows: both averages are NaN. *)
Lemma summary_of_nothing df :
  "Group_1" ∈ columns df → "Group_2" ∈ columns df →
  summary_of np_sum df [] = Ok (picked df [], NaN, NaN).
Proof.
  intros H1 H2. unfold summary_of. rewrite iloc_in_range by constructor. simpl.
  unfold getitem. simpl.
  destruct (list_find_elem_of (λ c, c = "Group_1") (columns df) _ H1 eq_refl)
    as [[p1 c1] ->].
  destruct (list_find_elem_of (λ c, c = "Group_2") (columns df) _ H2 eq_refl)
    as [[p2 c2] ->].
  done.
Qed.

End pandas_facts.

(** ** The selection summary *)

Section summary_facts.
Import pd gui.
Variable np_sum : list float → float.

Local Abbreviation grp1_avg := (gui.grp1_avg np_sum).
Local Abbreviation grp2_avg := (gui.grp2_avg np_sum).

(** With a frame loaded and a selection stored, the average of a column
    is the library's mean of that column of the picked rows, and the
    window is left as it was. *)
Lemma avg_runs_mean name w df idx :
  _dataframe w = Some (a_DataFrame df) →
  _selection_indexes w = Some idx →
  (sel ← selection; s ← lift (getitem sel name); lift (mean np_sum s)) w
  = ((sel ← iloc df idx; s ← getitem sel name; mean np_sum s), w).
Proof.
  intros Hdf Hidx. unfold selection. py_simpl. rewrite Hdf. simpl.
  rewrite Hidx. simpl.
  destruct (iloc df idx) as [sel|]; simpl; [|done].
  destruct (getitem sel name) as [s|]; simpl; [|done].
  by destruct (mean np_sum s).
Qed.

(** C1, as the code has it. With a dataset loaded whose columns Group_1
    and Group_2 hold numbers, and a non-empty set S of valid row indices
    stored as the current selection (in whatever order the list enumerates
    S), grp1_avg returns the float sum of the Group_1 values at the indices
    in S, added in the library's order with every addition rounded, divided
    by the size of S, and grp2_avg the same for Group_2. When the values at
    the indices in S are integers whose absolute values sum to less than
    [2^53], no addition rounds, whatever the order, and the value returned
    is the arithmetic mean of those values rounded once to the nearest
    float. *)
Theorem grp_avg_rounded_mean w df v1 v2 idx (S : gset nat) :
  _dataframe w = Some (a_DataFrame df) →
  getitem df "Group_1" = Ok (CNum <$> v1) →
  getitem df "Group_2" = Ok (CNum <$> v2) →
  _selection_indexes w = Some idx →
  idx ≡ₚ elements S →
  S ≠ ∅ →
  set_Forall (λ i, i < len df) S →
  (grp1_avg w
   = (Ok (fdiv_count (np_sum (round64 <$> ((λ i, nth i v1 0%Q) <$> idx))) (size S)), w)
   ∧ grp2_avg w
     = (Ok (fdiv_count (np_sum (round64 <$> ((λ i, nth i v2 0%Q) <$> idx))) (size S)), w))
  ∧ (adds_up np_sum →
     (∀ z1, (∀ i, i ∈ S → nth i v1 0%Q = inject_Z (z1 i)) → adds_exactly S z1 →
        grp1_avg w = (Ok (round64 (arithmetic_mean S (λ i, nth i v1 0%Q))), w))
     ∧ (∀ z2, (∀ i, i ∈ S → nth i v2 0%Q = inject_Z (z2 i)) → adds_exactly S z2 →
          grp2_avg w = (Ok (round64 (arithmetic_mean S (λ i, nth i v2 0%Q))), w))).
Proof.
  intros Hdf H1 H2 Hidx Hperm Hne Hvalid.
  unfold gui.grp1_avg, gui.grp2_avg.
  rewrite !(avg_runs_mean _ _ _ _ Hdf Hidx).
  split; [|intros Hsum; split].
  - by rewrite (mean_of_selection _ _ _ _ _ _ H1 Hperm Hne Hvalid),
               (mean_of_selection _ _ _ _ _ _ H2 Hperm Hne Hvalid).
  - intros z1 Hint Hexact.
    by rewrite (mean_of_integers _ _ _ _ _ _ z1 Hsum H1 Hperm Hne Hvalid Hint Hexact).
  - intros z2 Hint Hexact.
    by rewrite (mean_of_integers _ _ _ _ _ _ z2 Hsum H2 Hperm Hne Hvalid Hint Hexact).
Qed.

End summary_facts.

(** ** Frame rules for statement sequences *)

Section frame_rules.
Context {S B : Type} (f : S → B).

Lemma keeps_ret {A} (a : A) : keeps f (mret a).
Proof. done. Qed.

Lemma keeps_bind {A C} (m : Py S A) (k : A → Py S C) :
  keeps f m → (∀ a, keeps f (k a)) → keeps f (m ≫= k).
Proof.
  intros Hm Hk s. unfold mbind, Py_bind. specialize (Hm s).
  destruct (m s) as [[a|e] s']; simpl in *; [|done].
  by rewrite Hk.
Qed.

Lemma keeps_lift {A} (r : result A) : keeps f (lift r).
Proof. done. Qed.

Lemma keeps_raise {A} e : keeps f (raise (A := A) e).
Proof. done. Qed.

Lemma keeps_gets {A} (g : S → A) : keeps f (gets g).
Proof. done. Qed.

Lemma keeps_modify (g : S → S) : (∀ s, f (g s) = f s) → keeps f (modify g).
Proof. intros Hg s. apply Hg. Qed.

Lemma keeps_for_each {A} (xs : list A) (body : A → Py S unit) :
  (∀ x, keeps f (body x)) → keeps f (for_each xs body).
Proof.
  intros Hbody. induction xs as [|x xs IH]; simpl.
  - apply keeps_ret.
  - apply keeps_bind; auto.
Qed.

End frame_rules.

Lemma keeps_getattr {A B} (f : gui.MainWindow → B) (attr : gui.MainWindow → option A) :
  keeps f (gui.getattr attr).
Proof. intros w. unfold gui.getattr. by destruct (attr w). Qed.

Create HintDb frame discriminated.
#[global] Hint Resolve keeps_ret keeps_lift keeps_raise keeps_gets keeps_getattr : frame.

(** Walks a statement sequence, leaving the assignments to check. *)
Ltac frame_step :=
  first
    [ solve [auto with frame]
    | apply keeps_bind; [|intros ?]
    | apply keeps_for_each; intros ?
    | apply keeps_modify; intros ?; reflexivity
    | match goal with
      | |- keeps _ (match ?x with _ => _ end) => destruct x
      end ].
Ltac frame := repeat frame_step.

(** ** The window's methods *)

Section window_facts.
Import pd gui.
Variable read_csv : string → result DataFrame.
Variable str_frame : DataFrame → string.
Variable np_sum : list float → float.

Local Abbreviation grp1_avg := (gui.grp1_avg np_sum).
Local Abbreviation grp2_avg := (gui.grp2_avg np_sum).
Local Abbreviation selected_rows_changed := (gui.selected_rows_changed str_frame np_sum).
Local Abbreviation clear_selection := (gui.clear_selection str_frame np_sum).
Local Abbreviation clearSelection := (gui.clearSelection str_frame np_sum).
Local Abbreviation emit_selectionChanged := (gui.emit_selectionChanged str_frame np_sum).
Local Abbreviation import_data := (gui.import_data read_csv).
Local Abbreviation import_dialog := (gui.import_dialog read_csv).
Local Abbreviation __init__ := (gui.__init__ read_csv).
Local Abbreviation user_selects := (gui.user_selects str_frame np_sum).
Local Abbreviation dispatch := (gui.dispatch read_csv str_frame np_sum).
Local Abbreviation reachable := (gui.reachable read_csv str_frame np_sum).

(** *** What the handler does, case by case *)

(** The handler stores the rows of the view's selection, then either
    completes the summary of the loaded frame at those rows or raises what
    the first failing step raises. *)
Lemma selected_rows_changed_cases w :
  let idx := elements (selected_row_set w) in
  match _dataframe w with
  | Some (a_DataFrame df) =>
      match summary_of np_sum df idx with
      | Ok (sel, a1, a2) =>
          selected_rows_changed w
          = (Ok tt, summary_window (str_frame sel) a1 a2 idx w)
      | Raise e => (selected_rows_changed w).1 = Raise e
      end
  | _ => (selected_rows_changed w).1 = Raise AttributeError
  end.
Proof.
  unfold selected_row_set, gui.selected_rows_changed, grp1_avg, grp2_avg,
    selection, display_results, print, summary_of.
  py_simpl.
  generalize (elements (list_to_set (row <$> selectedIndexes (table_widget w)) : gset nat)).
  intros idx.
  destruct (_dataframe w) as [[df|]|] eqn:Hdf; simpl; [|done..].
  destruct (iloc df idx) as [sel|e] eqn:Hsel; simpl;
    [|by repeat (simpl; rewrite ?Hdf, ?Hsel)].
  destruct (getitem sel "Group_1") as [s1|e] eqn:H1; simpl;
    [|by repeat (simpl; rewrite ?Hdf, ?Hsel, ?H1)].
  destruct (mean np_sum s1) as [a1|e] eqn:Hm1; simpl;
    [|by repeat (simpl; rewrite ?Hdf, ?Hsel, ?H1, ?Hm1)].
  destruct (getitem sel "Group_2") as [s2|e] eqn:H2; simpl;
    [|by repeat (simpl; rewrite ?Hdf, ?Hsel, ?H1, ?Hm1, ?H2)].
  destruct (mean np_sum s2) as [a2|e] eqn:Hm2; simpl;
    by repeat (simpl; rewrite ?Hdf, ?Hsel, ?H1, ?Hm1, ?H2, ?Hm2).
Qed.

Lemma selected_rows_changed_stores w :
  _selection_indexes (selected_rows_changed w).2 = Some (elements (selected_row_set w)).
Proof.
  unfold selected_row_set, gui.selected_rows_changed, grp1_avg, grp2_avg,
    selection, display_results, print.
  py_simpl.
  generalize (elements (list_to_set (row <$> selectedIndexes (table_widget w)) : gset nat)).
  intros idx.
  destruct (_dataframe w) as [[df|]|] eqn:Hdf; simpl; [|done..].
  destruct (iloc df idx) as [sel|e] eqn:Hsel; simpl;
    [|by repeat (simpl; rewrite ?Hdf, ?Hsel)].
  destruct (getitem sel "Group_1") as [s1|e] eqn:H1; simpl;
    [|by repeat (simpl; rewrite ?Hdf, ?Hsel, ?H1)].
  destruct (mean np_sum s1) as [a1|e] eqn:Hm1; simpl;
    [|by repeat (simpl; rewrite ?Hdf, ?Hsel, ?H1, ?Hm1)].
  destruct (getitem sel "Group_2") as [s2|e] eqn:H2; simpl;
    [|by repeat (simpl; rewrite ?Hdf, ?Hsel, ?H1, ?Hm1, ?H2)].
  destruct (mean np_sum s2) as [a2|e] eqn:Hm2; simpl;
    by repeat (simpl; rewrite ?Hdf, ?Hsel, ?H1, ?Hm1, ?H2, ?Hm2).
Qed.

(** *** What the summary operations leave alone *)

Lemma selection_keeps {B} (f : MainWindow → B) : keeps f selection.
Proof. unfold selection. frame. Qed.

Lemma grp1_avg_keeps {B} (f : MainWindow → B) : keeps f grp1_avg.
Proof. unfold grp1_avg, selection. frame. Qed.

Lemma grp2_avg_keeps {B} (f : MainWindow → B) : keeps f grp2_avg.
Proof. unfold grp2_avg, selection. frame. Qed.

Lemma selected_rows_changed_keeps : keeps outside_summary selected_rows_changed.
Proof.
  unfold gui.selected_rows_changed, grp1_avg, grp2_avg, selection,
    display_results, print.
  frame.
Qed.

Lemma emit_selectionChanged_keeps : keeps outside_summary emit_selectionChanged.
Proof.
  unfold gui.emit_selectionChanged. frame.
  unfold run_slot. destruct x. apply selected_rows_changed_keeps.
Qed.

(** *** The handler on a window whose view and dataframe agree *)

Lemma selected_row_set_in_range w m :
  Forall (λ ix, row ix < len m) (selectedIndexes (table_widget w)) →
  Forall (λ i, i < len m) (elements (selected_row_set w)).
Proof.
  intros Hsel. apply Forall_forall. intros i Hi.
  apply elem_of_elements, elem_of_list_to_set, list_elem_of_fmap in Hi
    as (ix & -> & Hix).
  by eapply Forall_forall in Hsel.
Qed.

Lemma selected_row_set_nothing w :
  selectedIndexes (table_widget w) = [] → elements (selected_row_set w) = [].
Proof. unfold selected_row_set. intros ->. apply elements_empty. Qed.

(** Entered with the loaded frame [m] and a selection within its rows,
    the handler never fails on an index; it leaves dataframe, view and
    dialogs alone; and when it completes, [m] has both group columns. *)
Lemma selected_rows_changed_in_range w m r w' :
  _dataframe w = Some (a_DataFrame m) →
  Forall (λ ix, row ix < len m) (selectedIndexes (table_widget w)) →
  selected_rows_changed w = (r, w') →
  r ≠ Raise IndexError
  ∧ outside_summary w' = outside_summary w
  ∧ _selection_indexes w' = Some (elements (selected_row_set w))
  ∧ Forall (λ i, i < len m) (elements (selected_row_set w))
  ∧ (r = Ok tt → "Group_1" ∈ columns m ∧ "Group_2" ∈ columns m).
Proof.
  intros Hdf Hsel Hrun.
  pose proof (selected_row_set_in_range _ _ Hsel) as Hidx.
  pose proof (selected_rows_changed_keeps w) as Hkeep.
  pose proof (selected_rows_changed_stores w) as Hstore.
  pose proof (selected_rows_changed_cases w) as Hcases.
  rewrite Hrun in Hkeep, Hstore. simpl in *. rewrite Hdf in Hcases.
  destruct (summary_of np_sum m _) as [[[sel a1] a2]|e] eqn:Hsum;
    rewrite Hrun in Hcases; simpl in Hcases.
  - injection Hcases as -> _.
    repeat (split; [done|]). intros _. by eapply summary_of_Ok_columns.
  - subst r. split; [|by repeat (split; [done|])].
    intros [= ->]. by eapply summary_of_in_range.
Qed.

(** Entered with nothing selected in the view, on a frame that has both
    group columns, the handler completes and reports NaN twice. *)
Lemma selected_rows_changed_nothing w m :
  _dataframe w = Some (a_DataFrame m) →
  selectedIndexes (table_widget w) = [] →
  "Group_1" ∈ columns m → "Group_2" ∈ columns m →
  selected_rows_changed w
  = (Ok tt, summary_window (str_frame (picked m [])) NaN NaN [] w).
Proof.
  intros Hdf Hsel H1 H2.
  pose proof (selected_rows_changed_cases w) as Hcases. simpl in Hcases.
  by rewrite Hdf, (selected_row_set_nothing _ Hsel),
    (summary_of_nothing np_sum _ H1 H2) in Hcases.
Qed.

(** *** Import *)

Lemma import_dialog_Ok f df w :
  read_csv f = Ok df →
  ∃ w', import_dialog (Some f) w = (Ok tt, w')
    ∧ _file w' = Some f
    ∧ _dataframe w' = Some (a_DataFrame df)
    ∧ table_widget w' = loaded_view df
    ∧ _selected_rows w' = _selected_rows w
    ∧ _selection_indexes w' = _selection_indexes w
    ∧ results_widget w' = results_widget w
    ∧ error_dialog w' = error_dialog w.
Proof.
  intros Hread. unfold gui.import_dialog, gui.import_data, load_dataframe, print.
  py_simpl. rewrite Hread. simpl. eexists. split; [reflexivity|]. done.
Qed.

Lemma import_dialog_Raise f e w :
  read_csv f = Raise e →
  ∃ w', import_dialog (Some f) w = (Raise e, w')
    ∧ _file w' = Some f
    ∧ _dataframe w' = _dataframe w
    ∧ table_widget w' = table_widget w
    ∧ _selected_rows w' = _selected_rows w
    ∧ _selection_indexes w' = _selection_indexes w
    ∧ results_widget w' = results_widget w
    ∧ status_bar w' = status_bar w
    ∧ error_dialog w' = error_dialog w.
Proof.
  intros Hread. unfold gui.import_dialog, gui.import_data, load_dataframe, print.
  py_simpl. rewrite Hread. simpl. eexists. split; [reflexivity|]. done.
Qed.

Lemma import_dialog_dismissed w :
  import_dialog None w = (Ok tt, write_stdout "Nothing Loaded"
                                   (write_stdout "Getting User File Selection..." w)).
Proof. done. Qed.

(** *** Clearing *)

(** On a window whose view and dataframe agree the clear action runs to
    the end: nothing is selected in the view any more, [_selected_rows]
    is the empty list, the results area is empty. [_selection_indexes] is
    emptied by the handler when the view had a selection to clear, and
    not touched otherwise. *)
Lemma clear_selection_consistent w :
  consistent w →
  ∃ w', clear_selection w = (Ok tt, w')
    ∧ table_widget w' = set_selectedIndexes [] (table_widget w)
    ∧ _dataframe w' = _dataframe w
    ∧ error_dialog w' = error_dialog w
    ∧ _selected_rows w' = Some []
    ∧ results_widget w' = ""
    ∧ _selection_indexes w'
      = match selectedIndexes (table_widget w) with
        | [] => _selection_indexes w
        | _ :: _ => Some []
        end.
Proof.
  unfold consistent. intros Hw.
  unfold gui.clear_selection, gui.clearSelection, display_results, print.
  py_simpl.
  destruct (selectedIndexes (table_widget w)) as [|ix sel] eqn:Hsel; simpl.
  { eexists. split; [reflexivity|]. simpl.
    repeat (split; [done|]). split; [|done].
    destruct (table_widget w); simpl in *. by subst. }
  destruct (model (table_widget w)) as [m|]; [|done].
  destruct Hw as (Hdf & Hslots & _ & Hcols).
  destruct Hcols as [H1 H2]; [done|].
  unfold gui.emit_selectionChanged. py_simpl. rewrite Hslots. simpl. py_simpl.
  match goal with
  | |- context [gui.selected_rows_changed str_frame np_sum ?w1] =>
      rewrite (selected_rows_changed_nothing w1 m Hdf eq_refl H1 H2)
  end.
  simpl. eexists. split; [reflexivity|]. done.
Qed.

(** *** Selecting *)

Lemma cells_of_in_range m rs : Forall (λ ix, row ix < len m) (cells_of m rs).
Proof.
  apply Forall_forall. intros ix Hix. unfold cells_of in Hix.
  apply list_elem_of_join in Hix as (cells & Hix & Hcells).
  apply list_elem_of_fmap in Hcells as (r & -> & Hr).
  apply list_elem_of_filter in Hr as [Hr _].
  unfold row_cells in Hix. by apply list_elem_of_fmap in Hix as (c & -> & _).
Qed.

(** A selection event on a window whose view and dataframe agree: when it
    changes the view's selection the handler runs on the new selection,
    never failing on an index; otherwise nothing happens. *)
Lemma user_selects_consistent rs w r w' :
  consistent w →
  user_selects rs w = (r, w') →
  r ≠ Raise IndexError
  ∧ _dataframe w' = _dataframe w
  ∧ error_dialog w' = error_dialog w
  ∧ match model (table_widget w) with
    | None => r = Ok tt ∧ w' = w
    | Some m =>
        if decide (cells_of m rs = selectedIndexes (table_widget w))
        then r = Ok tt ∧ w' = w
        else table_widget w' = set_selectedIndexes (cells_of m rs) (table_widget w)
             ∧ _selection_indexes w' = Some (elements (selected_row_set w'))
             ∧ Forall (λ i, i < len m) (elements (selected_row_set w'))
             ∧ (r = Ok tt → "Group_1" ∈ columns m ∧ "Group_2" ∈ columns m)
    end.
Proof.
  unfold consistent, gui.user_selects.
  destruct (model (table_widget w)) as [m|] eqn:Hm.
  2:{ intros _ [= <- <-]. done. }
  intros (Hdf & Hslots & _ & _). simpl.
  destruct (decide (cells_of m rs = _)) as [Hsame|Hnew].
  { intros [= <- <-]. done. }
  unfold gui.emit_selectionChanged. py_simpl. rewrite Hslots. simpl. py_simpl.
  set (w1 := with_table_widget (set_selectedIndexes (cells_of m rs)) w).
  destruct (gui.selected_rows_changed str_frame np_sum w1) as [r1 w1'] eqn:Hrun.
  destruct (selected_rows_changed_in_range w1 m r1 w1' Hdf
              (cells_of_in_range m rs) Hrun)
    as (Hr1 & Hkeep & Hstore & Hidx & Hcols).
  injection Hkeep as _ Hdf' _ Htable Herr.
  assert (selected_row_set w1' = selected_row_set w1) as Hset
    by (unfold selected_row_set; by rewrite Htable).
  destruct r1 as [[]|e]; intros [= <- <-]; rewrite Hset; done.
Qed.

(** *** Every window of a session is consistent *)

Lemma consistent_init file w :
  __init__ file setupUI = (Ok tt, w) → consistent w.
Proof.
  unfold gui.__init__, gui.import_data, load_dataframe, print. py_simpl.
  destruct file as [f|]; simpl.
  - destruct (read_csv f) as [df|e]; simpl; [|done].
    intros [= <-]. unfold consistent. simpl. by repeat split.
  - by intros [= <-].
Qed.

Lemma consistent_dispatch e w w' :
  consistent w → dispatch e w = (Ok tt, w') → consistent w'.
Proof.
  intros Hw. destruct e as [[f|]| |rs]; simpl.
  - destruct (read_csv f) as [df|e] eqn:Hread.
    + destruct (import_dialog_Ok f df w Hread)
        as (w1 & -> & _ & Hdf & Htable & _).
      intros [= <-]. unfold consistent. rewrite Htable. simpl.
      by repeat split.
    + destruct (import_dialog_Raise f e w Hread) as (w1 & -> & _). done.
  - rewrite import_dialog_dismissed. by intros [= <-].
  - destruct (clear_selection_consistent w Hw)
      as (w1 & -> & Htable & Hdf & _).
    intros [= <-]. unfold consistent in *. rewrite Htable, Hdf. simpl.
    destruct (model (table_widget w)); [|done].
    destruct Hw as (? & ? & _ & _). by repeat split.
  - intros Hrun.
    destruct (user_selects_consistent rs w _ _ Hw Hrun)
      as (_ & Hdf & _ & Hview).
    unfold consistent in *.
    destruct (model (table_widget w)) as [m|] eqn:Hm.
    2:{ destruct Hview as [_ ->]. by rewrite Hm. }
    destruct (decide _) as [Hsame|Hnew].
    { destruct Hview as [_ ->]. by rewrite Hm. }
    destruct Hview as (Htable & _ & _ & Hcols).
    destruct Hw as (Hdfw & Hslots & _ & _).
    rewrite Htable, Hdf. simpl. rewrite Hm.
    repeat split; auto using cells_of_in_range; by apply Hcols.
Qed.

Lemma reachable_consistent w : reachable w → consistent w.
Proof.
  induction 1 as [file w Hinit|e w w' _ IH Hstep].
  - by eapply consistent_init.
  - by eapply consistent_dispatch.
Qed.

Lemma for_each_dispatch_reachable es w w' :
  reachable w → for_each es dispatch w = (Ok tt, w') → reachable w'.
Proof.
  revert w. induction es as [|e es IH]; intros w Hw; simpl.
  - by intros [= <-].
  - unfold mbind, Py_bind.
    destruct (dispatch e w) as [[[]|err] w1] eqn:Hstep; [|done].
    apply IH. by eapply reachable_step.
Qed.

Lemma session_reachable file es w :
  gui.session read_csv str_frame np_sum file es = (Ok tt, w) → reachable w.
Proof.
  unfold gui.session, mbind, Py_bind.
  destruct (__init__ file setupUI) as [[[]|err] w0] eqn:Hinit; [|done].
  apply for_each_dispatch_reachable. by eapply reachable_init.
Qed.

(** *** The text of the report *)

Lemma summary_text_nan text :
  summary_text text NaN NaN
  = text ++ nl ++ nl ++ "----Selected Averages----" ++ nl
      ++ "Average Group 1 : nan" ++ nl ++ "Average Group 2 : nan".
Proof. done. Qed.

(** *** The claims about the summary *)

(** C10. With a dataset loaded that has the two group columns and
    nothing selected in the view, a selection-changed event is not turned
    down: the handler runs to the end, stores the empty selection, shows no
    dialog, and replaces the display with the report of the empty frame in
    which both averages read [nan]; grp1_avg and grp2_avg return NaN. *)
Theorem empty_selection_reports_nan w df :
  _dataframe w = Some (a_DataFrame df) →
  "Group_1" ∈ columns df →
  "Group_2" ∈ columns df →
  selectedIndexes (table_widget w) = [] →
  ∃ w', selected_rows_changed w = (Ok tt, w')
    ∧ _selection_indexes w' = Some []
    ∧ grp1_avg w' = (Ok NaN, w')
    ∧ grp2_avg w' = (Ok NaN, w')
    ∧ results_widget w'
      = str_frame (picked df []) ++ nl ++ nl ++ "----Selected Averages----" ++ nl
          ++ "Average Group 1 : nan" ++ nl ++ "Average Group 2 : nan"
    ∧ error_dialog w' = error_dialog w.
Proof.
  intros Hdf H1 H2 Hsel.
  rewrite (selected_rows_changed_nothing w df Hdf Hsel H1 H2).
  eexists. split; [reflexivity|]. split; [done|].
  pose proof (summary_of_nothing np_sum df H1 H2) as Hsum. unfold summary_of in Hsum.
  rewrite iloc_in_range in Hsum by constructor. simpl in Hsum.
  destruct (getitem (picked df []) "Group_1") as [s1|] eqn:Hs1; simpl in Hsum; [|done].
  destruct (mean np_sum s1) as [a1|] eqn:Hm1; simpl in Hsum; [|done].
  destruct (getitem (picked df []) "Group_2") as [s2|] eqn:Hs2; simpl in Hsum; [|done].
  destruct (mean np_sum s2) as [a2|] eqn:Hm2; simpl in Hsum; [|done].
  injection Hsum as -> ->.
  unfold grp1_avg, grp2_avg.
  rewrite !(avg_runs_mean np_sum _ _ df []) by done.
  rewrite iloc_in_range by constructor. simpl.
  by rewrite Hs1, Hs2; simpl; rewrite Hm1, Hm2.
Qed.

(** C9. The selection summary leaves the dataset alone: the handler, the
    two averages, [selection], the clear action and [display_results] end
    with the [_dataframe] they started with, whether they return or raise,
    and so does [load_dataframe]. Only [import_data] assigns it, and then
    the whole frame the reader returned. *)
Theorem summary_leaves_dataset :
  keeps _dataframe selected_rows_changed
  ∧ keeps _dataframe grp1_avg
  ∧ keeps _dataframe grp2_avg
  ∧ keeps _dataframe selection
  ∧ keeps _dataframe clear_selection
  ∧ (∀ text, keeps _dataframe (display_results text))
  ∧ keeps _dataframe load_dataframe
  ∧ (∀ path w,
       _dataframe (import_data path w).2
       = match read_csv path with
         | Ok df => Some (a_DataFrame df)
         | Raise _ => _dataframe w
         end).
Proof.
  split; [|split; [|split; [|split; [|split; [|split; [|split]]]]]].
  - intros w. pose proof (selected_rows_changed_keeps w) as Hkeep.
    by injection Hkeep.
  - apply grp1_avg_keeps.
  - apply grp2_avg_keeps.
  - apply selection_keeps.
  - assert (keeps _dataframe emit_selectionChanged) as Hemit.
    { intros w. pose proof (emit_selectionChanged_keeps w) as Hkeep.
      by injection Hkeep. }
    unfold gui.clear_selection, gui.clearSelection, display_results, print.
    frame.
  - intros text. unfold display_results. frame.
  - unfold load_dataframe. frame.
  - intros path w. unfold gui.import_data, print. py_simpl.
    by destruct (read_csv path).
Qed.

(** *** The claims about import, clearing and the stored selection *)

(** C4, as the code has it. In every window of a session: an import that
    succeeds replaces the dataset and leaves the view with nothing selected
    and the display as it was, but does not assign [_selection_indexes],
    which keeps the rows stored for the old dataset; and a selection event
    never indexes outside the dataset: whenever it changes the view's
    selection, the handler first stores the rows of the new selection, all of
    them rows of the dataset loaded at that moment, and computes from
    those. *)
Theorem selection_follows_dataset w :
  reachable w →
  (∀ f df, read_csv f = Ok df →
     ∃ w', import_dialog (Some f) w = (Ok tt, w')
       ∧ _dataframe w' = Some (a_DataFrame df)
       ∧ selectedIndexes (table_widget w') = []
       ∧ results_widget w' = results_widget w
       ∧ _selection_indexes w' = _selection_indexes w)
  ∧ (∀ rs r w', user_selects rs w = (r, w') →
       r ≠ Raise IndexError
       ∧ (selectedIndexes (table_widget w') ≠ selectedIndexes (table_widget w) →
          ∃ df, _dataframe w' = Some (a_DataFrame df)
            ∧ _selection_indexes w' = Some (elements (selected_row_set w'))
            ∧ Forall (λ i, i < len df) (elements (selected_row_set w')))).
Proof.
  intros Hw%reachable_consistent. split.
  - intros f df Hread.
    destruct (import_dialog_Ok f df w Hread)
      as (w' & Hrun & _ & Hdf & Htable & _ & Hidx & Hresults & _).
    exists w'. by rewrite Htable.
  - intros rs r w' Hrun.
    destruct (user_selects_consistent rs w r w' Hw Hrun)
      as (Hr & Hdf & _ & Hview).
    split; [done|]. intros Hchanged.
    unfold consistent in Hw.
    destruct (model (table_widget w)) as [m|]; [|by destruct Hview as [_ ->]].
    destruct (decide _); [by destruct Hview as [_ ->]|].
    destruct Hw as (Hdfw & _). destruct Hview as (_ & Hstore & Hidx & _).
    exists m. by rewrite Hdf.
Qed.

(** X16. In every window of a session the clear action runs to the end and
    leaves nothing selected in the view, [_selected_rows] empty and the
    results area empty, whatever was loaded, selected or displayed before;
    when the view had a selection to clear, the handler it triggers has
    emptied [_selection_indexes] as well. *)
Lemma clear_selection_empties w :
  reachable w →
  ∃ w', clear_selection w = (Ok tt, w')
    ∧ selectedIndexes (table_widget w') = []
    ∧ _selected_rows w' = Some []
    ∧ results_widget w' = ""
    ∧ (selectedIndexes (table_widget w) ≠ [] → _selection_indexes w' = Some []).
Proof.
  intros Hw%reachable_consistent.
  destruct (clear_selection_consistent w Hw)
    as (w' & Hrun & Htable & _ & _ & Hrows & Htext & Hidx).
  exists w'. rewrite Htable. repeat (split; [done|]).
  by destruct (selectedIndexes (table_widget w)).
Qed.

(** Where the notice is shown: [load_dataframe] shows it, and leaves the
    view without model and handler, when [_dataframe] holds something that is
    not a DataFrame. The selection summary has no check of its own: in a
    window of a session that has no dataset, the view has no model and a
    selection event reaches no handler. *)
Lemma no_data_notice :
  (∀ w, _dataframe w = Some an_object →
        load_dataframe w = (Ok tt, showMessage "No data loaded!" w))
  ∧ (∀ w, reachable w → _dataframe w = None →
          model (table_widget w) = None
          ∧ ∀ rs, user_selects rs w = (Ok tt, w)).
Proof.
  split.
  - intros w Hdf. unfold load_dataframe. py_simpl. by rewrite Hdf.
  - intros w Hw%reachable_consistent Hdf. unfold consistent in Hw.
    destruct (model (table_widget w)) as [m|] eqn:Hm.
    { destruct Hw as [Hdf' _]. congruence. }
    split; [done|]. intros rs. unfold gui.user_selects. by rewrite Hm.
Qed.

(** C6, as the code has it. When the reader fails on the chosen path,
    [import_dialog] raises the reader's exception: the dataset, the view,
    the stored selection, the display, the status line and the dialogs are
    as before (no notice is shown), and [_file] already names the path that
    failed. *)
Theorem failed_import_raises w f e :
  read_csv f = Raise e →
  ∃ w', import_dialog (Some f) w = (Raise e, w')
    ∧ _dataframe w' = _dataframe w
    ∧ table_widget w' = table_widget w
    ∧ _selection_indexes w' = _selection_indexes w
    ∧ results_widget w' = results_widget w
    ∧ status_bar w' = status_bar w
    ∧ error_dialog w' = error_dialog w
    ∧ _file w' = Some f.
Proof.
  intros Hread.
  destruct (import_dialog_Raise f e w Hread)
    as (w' & Hrun & ? & ? & ? & ? & ? & ? & ? & ?).
  by exists w'.
Qed.

(** C8, the stored selection at start. The constructor assigns
    [_selected_rows], which nothing reads; [_selection_indexes], which
    [selection] reads, is not assigned: in the window the constructor
    returns, [selection] and both averages raise [AttributeError] where an
    empty selection would give an empty frame and NaN. *)
Theorem initial_selection_unassigned file w :
  __init__ file setupUI = (Ok tt, w) →
  _selected_rows w = Some []
  ∧ _selection_indexes w = None
  ∧ (selection w).1 = Raise AttributeError
  ∧ (grp1_avg w).1 = Raise AttributeError
  ∧ (grp2_avg w).1 = Raise AttributeError.
Proof.
  unfold gui.__init__, gui.import_data, load_dataframe, print. py_simpl.
  destruct file as [f|]; simpl.
  - destruct (read_csv f) as [df|e]; simpl; [|done].
    by intros [= <-].
  - by intros [= <-].
Qed.

(** X17. After a selection-changed event the stored selection lists every
    selected row once, however many cells of the row the view reports. *)
Lemma selection_indexes_deduplicated w :
  ∃ idx, _selection_indexes (selected_rows_changed w).2 = Some idx
    ∧ NoDup idx
    ∧ ∀ i, i ∈ idx ↔ ∃ ix, ix ∈ selectedIndexes (table_widget w) ∧ row ix = i.
Proof.
  eexists. split; [apply selected_rows_changed_stores|].
  split; [apply NoDup_elements|].
  intros i. unfold selected_row_set.
  rewrite elem_of_elements, elem_of_list_to_set, list_elem_of_fmap.
  split; [intros (ix & -> & Hix)|intros (ix & Hix & <-)]; eauto.
Qed.

End window_facts.

(** ** The scenario, run *)

Section scenarios.
Import pd gui.

Lemma last_row_selected_reachable :
  reachable scenario_disk row_count_text seq_sum last_row_selected.
Proof.
  apply (session_reachable _ _ _ (Some "stats.csv") [select_rows [2]]).
  by vm_compute.
Qed.

(** The scenario end to end: highlighting the first two rows makes the
    handler store them and display their means. *)
Example two_rows_selected :
  let w := (session scenario_disk row_count_text seq_sum (Some "stats.csv") [select_rows [0; 1]]).2 in
  (∃ idx, _selection_indexes w = Some idx ∧ idx ≡ₚ [0; 1])
  ∧ status_bar w = "Selected Rows: " ++ str_list (default [] (_selection_indexes w))
  ∧ results_widget w
    = "2 rows" ++ nl ++ nl ++ "----Selected Averages----" ++ nl
        ++ "Average Group 1 : 1.500000" ++ nl ++ "Average Group 2 : 15.000000".
Proof.
  split; [|split; by vm_compute].
  vm_compute. eexists. split; [reflexivity|].
  apply perm_swap || reflexivity.
Qed.

Lemma empty_selection_scenario :
  ∃ w', selected_rows_changed row_count_text seq_sum scenario_window = (Ok tt, w')
    ∧ _selection_indexes w' = Some []
    ∧ grp1_avg seq_sum w' = (Ok NaN, w')
    ∧ grp2_avg seq_sum w' = (Ok NaN, w')
    ∧ results_widget w'
      = row_count_text (picked scenario_frame []) ++ nl ++ nl
          ++ "----Selected Averages----" ++ nl
          ++ "Average Group 1 : nan" ++ nl ++ "Average Group 2 : nan"
    ∧ error_dialog w' = error_dialog scenario_window.
Proof.
  apply (empty_selection_reports_nan row_count_text seq_sum scenario_window scenario_frame).
  - reflexivity.
  - apply list_elem_of_here.
  - apply list_elem_of_further, list_elem_of_here.
  - reflexivity.
Defined.

Lemma import_after_selection_scenario :
  ∃ w', import_dialog scenario_disk (Some "one.csv") last_row_selected = (Ok tt, w')
    ∧ _dataframe w' = Some (a_DataFrame one_row_frame)
    ∧ selectedIndexes (table_widget w') = []
    ∧ results_widget w' = results_widget last_row_selected
    ∧ _selection_indexes w' = _selection_indexes last_row_selected.
Proof.
  apply (selection_follows_dataset scenario_disk row_count_text seq_sum last_row_selected).
  - apply last_row_selected_reachable.
  - reflexivity.
Defined.

Lemma clear_after_selection_scenario :
  ∃ w', clear_selection row_count_text seq_sum last_row_selected = (Ok tt, w')
    ∧ selectedIndexes (table_widget w') = []
    ∧ _selected_rows w' = Some []
    ∧ results_widget w' = ""
    ∧ (selectedIndexes (table_widget last_row_selected) ≠ [] →
       _selection_indexes w' = Some []).
Proof.
  apply (clear_selection_empties scenario_disk row_count_text seq_sum last_row_selected).
  apply last_row_selected_reachable.
Defined.

Lemma no_data_notice_scenario :
  load_dataframe (set__dataframe an_object setupUI)
  = (Ok tt, showMessage "No data loaded!" (set__dataframe an_object setupUI))
  ∧ user_selects row_count_text seq_sum [0] fresh_window = (Ok tt, fresh_window).
Proof.
  split.
  - apply (proj1 (no_data_notice scenario_disk row_count_text seq_sum)). reflexivity.
  - apply (proj2 (no_data_notice scenario_disk row_count_text seq_sum) fresh_window).
    + apply (reachable_init _ _ _ None). reflexivity.
    + reflexivity.
Defined.

(** C5, where it fails. In the window [MainWindow()] returns nothing is
    loaded and [_dataframe] was never assigned: asking for the table
    ([load_dataframe], whose type test reads the attribute) and asking for a
    summary ([selected_rows_changed], [grp1_avg], which have no test) raise
    [AttributeError]; no dialog is shown. *)
Theorem no_data_requests_raise :
  _dataframe fresh_window = None
  ∧ load_dataframe fresh_window = (Raise AttributeError, fresh_window)
  ∧ (selected_rows_changed row_count_text seq_sum fresh_window).1 = Raise AttributeError
  ∧ error_dialog (selected_rows_changed row_count_text seq_sum fresh_window).2 = []
  ∧ grp1_avg seq_sum fresh_window = (Raise AttributeError, fresh_window)
  ∧ error_dialog fresh_window = [].
Proof. by vm_compute. Qed.

Lemma failed_import_scenario :
  ∃ w', import_dialog scenario_disk (Some "missing.csv") scenario_window
        = (Raise FileNotFoundError, w')
    ∧ _dataframe w' = _dataframe scenario_window
    ∧ table_widget w' = table_widget scenario_window
    ∧ _selection_indexes w' = _selection_indexes scenario_window
    ∧ results_widget w' = results_widget scenario_window
    ∧ status_bar w' = status_bar scenario_window
    ∧ error_dialog w' = error_dialog scenario_window
    ∧ _file w' = Some "missing.csv".
Proof.
  apply (failed_import_raises scenario_disk scenario_window "missing.csv").
  reflexivity.
Defined.

(** Importing a path that does not exist, or a file that does not parse,
    ends in the reader's exception: no dialog is shown, the results area and
    the status line are not written, and the constructor fails the same
    way. *)
Lemma failed_import_shows_nothing :
  (import_dialog scenario_disk (Some "missing.csv") scenario_window).1
  = Raise FileNotFoundError
  ∧ error_dialog (import_dialog scenario_disk (Some "missing.csv") scenario_window).2 = []
  ∧ results_widget (import_dialog scenario_disk (Some "missing.csv") scenario_window).2
    = "Results"
  ∧ status_bar (import_dialog scenario_disk (Some "missing.csv") scenario_window).2 = ""
  ∧ (import_dialog scenario_disk (Some "broken.csv") scenario_window).1
    = Raise ParserError
  ∧ error_dialog (import_dialog scenario_disk (Some "broken.csv") scenario_window).2 = []
  ∧ (__init__ scenario_disk (Some "missing.csv") setupUI).1 = Raise FileNotFoundError.
Proof. by vm_compute. Qed.

Lemma initial_selection_scenario :
  _selected_rows scenario_window = Some []
  ∧ _selection_indexes scenario_window = None
  ∧ (selection scenario_window).1 = Raise AttributeError
  ∧ (grp1_avg seq_sum scenario_window).1 = Raise AttributeError
  ∧ (grp2_avg seq_sum scenario_window).1 = Raise AttributeError.
Proof.
  apply (initial_selection_unassigned scenario_disk seq_sum (Some "stats.csv")).
  reflexivity.
Defined.

(** After highlighting the last of three rows and importing the one-row
    file, the stored selection is still row 2, which the new dataset does not
    have: an average asked for now raises [IndexError]. *)
Lemma import_keeps_stored_selection :
  _dataframe reimported = Some (a_DataFrame one_row_frame)
  ∧ len one_row_frame = 1
  ∧ selectedIndexes (table_widget reimported) = []
  ∧ _selection_indexes reimported = Some [2]
  ∧ (grp1_avg seq_sum reimported).1 = Raise IndexError
  ∧ (grp2_avg seq_sum reimported).1 = Raise IndexError.
Proof. by vm_compute. Qed.

(** C7, where it fails. After highlighting the last of three rows,
    importing the one-row file and pressing Clear, the view has nothing
    selected, [_selected_rows] is empty and the results area is empty, but
    the stored selection [_selection_indexes] is still the old row 2: the
    clear action assigns [_selected_rows], and the view, with nothing
    selected after the import, signals no change. *)
Theorem stale_selection_indexes :
  selectedIndexes (table_widget reimported_and_cleared) = []
  ∧ _selected_rows reimported_and_cleared = Some []
  ∧ results_widget reimported_and_cleared = ""
  ∧ _dataframe reimported_and_cleared = Some (a_DataFrame one_row_frame)
  ∧ _selection_indexes reimported_and_cleared = Some [2]
  ∧ (grp1_avg seq_sum reimported_and_cleared).1 = Raise IndexError.
Proof. by vm_compute. Qed.

(** The scenario Group_1 = [1,2,3], Group_2 = [10,20,30] with rows {0,1}
    selected: the means are 1.5 and 15. *)
Lemma scenario_means :
  grp1_avg seq_sum (window_with scenario_frame [0; 1])
  = (Ok (FNum (3 # 2)), window_with scenario_frame [0; 1]) ∧
  grp2_avg seq_sum (window_with scenario_frame [0; 1])
  = (Ok (FNum 15), window_with scenario_frame [0; 1]).
Proof.
  set (w := window_with scenario_frame [0; 1]).
  assert ([0; 1] ≡ₚ elements ({[0; 1]} : gset nat)) as Hperm.
  { vm_compute. apply perm_swap || reflexivity. }
  assert (({[0; 1]} : gset nat) ≠ ∅) as Hne by (by vm_compute).
  assert (set_Forall (λ i, i < len scenario_frame) ({[0; 1]} : gset nat)) as Hvalid.
  { apply set_Forall_elements. vm_compute. repeat constructor. }
  assert (∀ i, i ∈ ({[0; 1]} : gset nat) → i = 0 ∨ i = 1) as Hrows by set_solver.
  destruct (grp_avg_rounded_mean seq_sum w scenario_frame [1; 2; 3]%Q [10; 20; 30]%Q
              [0; 1] {[0; 1]} eq_refl eq_refl eq_refl eq_refl Hperm Hne Hvalid)
    as [_ Hexact].
  destruct (Hexact seq_sum_adds_up) as [Hg1 Hg2].
  rewrite (Hg1 (λ i, nth i [1; 2; 3]%Z 0%Z)), (Hg2 (λ i, nth i [10; 20; 30]%Z 0%Z)).
  - split; by vm_compute.
  - intros i [->| ->]%Hrows; reflexivity.
  - by vm_compute.
  - intros i [->| ->]%Hrows; reflexivity.
  - by vm_compute.
Defined.

(** Where the average is not the arithmetic mean. For the floats nearest
    to 0.1, 0.2 and 0.3, all three rows selected, the value returned with
    the additions made from left to right is 0.20000000000000004: it is not
    the arithmetic mean of the three values, and not the float nearest to
    it, which is 0.2; adding the last two first gives 0.19999999999999998
    instead. For two values of [10^308] the sum overflows and the average is
    the infinity. *)
Lemma tenths_mean_is_rounded :
  grp1_avg seq_sum (window_with tenths_frame [0; 1; 2])
  = (Ok (FNum (7205759403792795 # 36028797018963968)), window_with tenths_frame [0; 1; 2])
  ∧ ¬ Qeq (7205759403792795 # 36028797018963968)
          (arithmetic_mean {[0; 1; 2]} (λ i, nth i [tenth; fifth; three_tenths] 0%Q))
  ∧ round64 (arithmetic_mean {[0; 1; 2]} (λ i, nth i [tenth; fifth; three_tenths] 0%Q))
    = FNum fifth
  ∧ fdiv_count (fadd (FNum tenth) (fadd (FNum fifth) (FNum three_tenths))) 3
    = FNum (7205759403792793 # 36028797018963968)
  ∧ fdiv_count (fadd (fadd (FNum tenth) (FNum three_tenths)) (FNum fifth)) 3
    = FNum (7205759403792795 # 36028797018963968)
  ∧ grp1_avg seq_sum (window_with huge_frame [0; 1])
    = (Ok (Inf false), window_with huge_frame [0; 1]).
Proof.
  split; [by vm_compute|]. split; [by vm_compute|]. repeat split; by vm_compute.
Qed.

End scenarios.

(** ** The export script *)

Section export_facts.
Import pd excel_export.
Variable execute : string → list (string * DataFrame) → result DataFrame.

Local Abbreviation read_sql := (excel_export.read_sql execute).
Local Abbreviation table_loop := (excel_export.table_loop execute).
Local Abbreviation export_day := (excel_export.export_day execute).
Local Abbreviation main := (excel_export.main execute).

(** *** Names *)

Lemma last_char_app a b : b ≠ "" → last_char (a +:+ b) = last_char b.
Proof.
  intros Hb. induction a as [|c a IH]; [done|].
  simpl. rewrite IH. by destruct (a +:+ b) eqn:Hab; [destruct a, b|].
Qed.

Lemma last_char_app3 a b c : c ≠ "" → last_char (a +:+ b +:+ c) = last_char c.
Proof.
  intros Hc. rewrite last_char_app; [by apply last_char_app|].
  by destruct b, c.
Qed.

Lemma xlsx_name_not_db_name d d' : xlsx_name d ≠ db_name d'.
Proof.
  intros Heq. apply (f_equal last_char) in Heq. unfold xlsx_name, db_name in Heq.
  by rewrite !last_char_app3 in Heq.
Qed.



Lemma elem_of_glob pattern (fs : gmap string Entry) name :
  name ∈ glob pattern fs ↔ glob_match pattern name = true ∧ is_Some (fs !! name).
Proof.
  unfold glob. by rewrite list_elem_of_filter, elem_of_elements, elem_of_dom.
Qed.

Lemma NoDup_glob pattern (fs : gmap string Entry) : NoDup (glob pattern fs).
Proof. apply NoDup_filter, NoDup_elements. Qed.

(** *** The removal loop *)

(** [rmtree] over a list of existing entries one of which is a file: the
    loop raises, and before that it has removed directories only. *)
Lemma rmtree_loop_file (names : list string) (fs : gmap string Entry) :
  NoDup names →
  (∀ n, n ∈ names → is_Some (fs !! n)) →
  (∃ n c, n ∈ names ∧ fs !! n = Some (File c)) →
  ∃ fs', for_each names rmtree fs = (Raise NotADirectoryError, fs')
    ∧ (∀ n c, fs !! n = Some (File c) → fs' !! n = Some (File c))
    ∧ (∀ n, fs !! n = None → fs' !! n = None).
Proof.
  revert fs. induction names as [|x names IH]; intros fs Hnodup Hsome (n & c & Hn & Hfile).
  { by apply not_elem_of_nil in Hn. }
  apply NoDup_cons in Hnodup as [Hx Hnodup].
  simpl. unfold mbind, Py_bind, rmtree at 1.
  destruct (fs !! x) as [[cx|]|] eqn:Hfx.
  - exists fs. done.
  - assert (n ≠ x) as Hnx by congruence.
    apply elem_of_cons in Hn as [?|Hn]; [done|].
    destruct (IH (delete x fs)) as (fs' & Hrun & Hfiles & Hnone); [done| |by exists n, c; rewrite lookup_delete_ne|].
    { intros y Hy. rewrite lookup_delete_ne by set_solver. apply Hsome. by right. }
    exists fs'. split; [done|]. split.
    + intros y cy Hy. apply Hfiles. rewrite lookup_delete_ne by congruence. done.
    + intros y Hy. apply Hnone. destruct (decide (x = y)) as [->|];
        [apply lookup_delete_eq|by rewrite lookup_delete_ne].
  - destruct (Hsome x) as [? ?]; [by left|congruence].
Qed.

(** C3, where it fails. Whenever the directory holds a regular file
    whose name matches the pattern, the run ends in [NotADirectoryError]
    inside the removal loop: every regular file of the directory, that one
    included, is still there, and nothing has been written. *)
Theorem existing_output_stops_export num_days (fs : gmap string Entry) name c :
  fs !! name = Some (File c) →
  glob_match output_pattern name = true →
  ∃ fs', main num_days fs = (Raise NotADirectoryError, fs')
    ∧ (∀ n c', fs !! n = Some (File c') → fs' !! n = Some (File c'))
    ∧ (∀ n, fs !! n = None → fs' !! n = None).
Proof.
  intros Hfile Hmatch.
  destruct (rmtree_loop_file (glob output_pattern fs) fs) as (fs' & Hrun & Hkeep).
  - apply NoDup_glob.
  - intros n Hn. by apply elem_of_glob in Hn as [_ ?].
  - exists name, c. split; [|done]. apply elem_of_glob. by rewrite Hfile.
  - exists fs'. split; [|done].
    unfold excel_export.main, remove_files. unfold mbind at 1 2, Py_bind, gets. simpl.
    fold output_pattern. by rewrite Hrun.
Qed.

(** *** Reading the database *)



Lemma read_sql_list_tables (fs : gmap string Entry) conn tables :
  fs !! conn = Some (File (Database tables)) →
  read_sql list_tables conn fs
  = (Ok {| columns := ["name"]; rows := (λ t, [CStr t.1]) <$> tables |}, fs).
Proof.
  intros Hfs. unfold excel_export.read_sql, tables_of. py_simpl. by rewrite Hfs.
Qed.

(** *** Adding a sheet *)




(** *** One interval *)



(** *** The whole run *)

Lemma string_length_app a b :
  String.length (a +:+ b) = String.length a + String.length b.
Proof. induction a as [|c a IH]; [done|]. simpl. by rewrite IH. Qed.

Lemma string_app_inv_tail a b t : a +:+ t = b +:+ t → a = b.
Proof.
  revert b. induction a as [|c a IH]; intros [|c' b] Heq; [done| | |].
  - apply (f_equal String.length) in Heq.
    rewrite !string_length_app in Heq. simpl in Heq. lia.
  - apply (f_equal String.length) in Heq.
    rewrite !string_length_app in Heq. simpl in Heq. lia.
  - injection Heq as -> Heq. f_equal. by apply IH.
Qed.

Lemma xlsx_name_inj d d' : xlsx_name d = xlsx_name d' → d = d'.
Proof.
  unfold xlsx_name. intros Heq.
  apply (inj (String.app "fangraph_")), string_app_inv_tail in Heq.
  by apply (inj pretty) in Heq.
Qed.



End export_facts.

(** ** The export, run *)

Section export_scenarios.
Import pd excel_export.

Local Abbreviation main := (excel_export.main scenario_sqlite).


(** C2, where it fails. The first run on [first_directory] writes the
    workbook of the two tables. Run again after a third table was added,
    the script stops in the removal loop on the workbook of the first run:
    the directory is as before, so the workbook of interval 7 still has the
    two old sheets and none for the new table. *)
Theorem second_run_exports_nothing :
  main [7%Z] first_directory = (Ok tt, after_first_run)
  ∧ after_first_run !! xlsx_name 7
    = Some (File (Workbook [sheet_of ("batting", batting); sheet_of ("pitching", pitching)]))
  ∧ main [7%Z] before_second_run = (Raise NotADirectoryError, before_second_run)
  ∧ before_second_run !! db_name 7
    = Some (File (Database [("batting", batting); ("pitching", pitching);
                            ("fielding", batting)]))
  ∧ before_second_run !! xlsx_name 7
    = Some (File (Workbook [sheet_of ("batting", batting); sheet_of ("pitching", pitching)])).
Proof. by vm_compute. Qed.

Lemma existing_output_scenario :
  ∃ fs', main [7%Z] before_second_run = (Raise NotADirectoryError, fs')
    ∧ (∀ n c', before_second_run !! n = Some (File c') → fs' !! n = Some (File c'))
    ∧ (∀ n, before_second_run !! n = None → fs' !! n = None).
Proof.
  apply (existing_output_stops_export scenario_sqlite [7%Z] before_second_run (xlsx_name 7)
           (Workbook [sheet_of ("batting", batting); sheet_of ("pitching", pitching)])).
  - by vm_compute.
  - by vm_compute.
Defined.


End export_scenarios.


(** * Further properties of the two scripts *)

(** ** Rules for relating the states of a statement sequence *)

Section along_rules.
Context {S : Type} (R : S → S → Prop) `{!PreOrder R}.

Lemma along_ret {A} (a : A) : along R (mret a).
Proof. intros s. simpl. reflexivity. Qed.

Lemma along_bind {A B} (m : Py S A) (k : A → Py S B) :
  along R m → (∀ a, along R (k a)) → along R (m ≫= k).
Proof.
  intros Hm Hk s. unfold mbind, Py_bind. specialize (Hm s).
  destruct (m s) as [[a|e] s']; simpl in *; [|done].
  etrans; [exact Hm|apply Hk].
Qed.

Lemma along_lift {A} (r : result A) : along R (lift r).
Proof. intros s. simpl. reflexivity. Qed.

Lemma along_raise {A} e : along R (raise (A := A) e).
Proof. intros s. simpl. reflexivity. Qed.

Lemma along_gets {A} (g : S → A) : along R (gets g).
Proof. intros s. simpl. reflexivity. Qed.

Lemma along_for_each_in {A} (xs : list A) (body : A → Py S unit) :
  (∀ x, x ∈ xs → along R (body x)) → along R (for_each xs body).
Proof.
  induction xs as [|x xs IH]; intros Hbody; simpl.
  - apply along_ret.
  - apply along_bind; [apply Hbody; by left|].
    intros _. apply IH. intros y Hy. apply Hbody. by right.
Qed.

End along_rules.

(** ** More on the export script *)

Section export_more.
Import pd excel_export.
Variable execute : string → list (string * DataFrame) → result DataFrame.

Local Abbreviation read_sql := (excel_export.read_sql execute).
Local Abbreviation table_loop := (excel_export.table_loop execute).
Local Abbreviation export_day := (excel_export.export_day execute).
Local Abbreviation main := (excel_export.main execute).

Global Instance files_kept_preorder outputs : PreOrder (files_kept outputs).
Proof.
  split.
  - by intros fs n c.
  - intros fs1 fs2 fs3 H12 H23 n c Hn Hout. by apply H23; [apply H12|].
Qed.

Lemma files_kept_weaken (P Q : string → Prop) fs fs' :
  (∀ n, P n → Q n) → files_kept P fs fs' → files_kept Q fs fs'.
Proof. intros HPQ Hkept n c Hn Hout. apply Hkept; [done|]. intros HP. by apply Hout, HPQ. Qed.

(** *** What each step does to the directory *)

Lemma rmtree_keeps_files outputs name : along (files_kept outputs) (rmtree name).
Proof.
  intros fs n c Hn _. unfold rmtree.
  destruct (fs !! name) as [[cx|]|] eqn:Hname; simpl; [done| |done].
  rewrite lookup_delete_ne; [done|congruence].
Qed.

Lemma connect_keeps_files outputs name : along (files_kept outputs) (connect name).
Proof.
  intros fs n c Hn _. unfold connect.
  destruct (fs !! name) as [[cx|]|] eqn:Hname; simpl; [done|done|].
  rewrite lookup_insert_ne; [done|congruence].
Qed.

Lemma read_sql_reads_only sql conn (fs : gmap string Entry) : (read_sql sql conn fs).2 = fs.
Proof.
  unfold excel_export.read_sql, tables_of, mbind, Py_bind, lift.
  destruct (fs !! conn) as [[[sheets|tables|]|]|]; try reflexivity.
  destruct (decide (sql = list_tables)); [reflexivity|].
  by destruct (execute sql tables).
Qed.

Lemma to_excel_path dft writer name index writer' :
  to_excel dft writer name index = Ok writer' → path writer' = path writer.
Proof.
  unfold to_excel. destruct (_ || _); [done|].
  destruct (get_worksheet_by_name _ _) as [[i sheet]|]; [by intros [= <-]|].
  destruct (check_sheetname _ _); simpl; [|done]. by intros [= <-].
Qed.

(** The table loop reads only, and the writer it returns writes to the
    path it was created for. *)
Lemma table_loop_reads_only conn names writer (fs : gmap string Entry) :
  (table_loop conn names writer fs).2 = fs
  ∧ ∀ writer', (table_loop conn names writer fs).1 = Ok writer' →
               path writer' = path writer.
Proof.
  revert writer. induction names as [|[q|name|] names IH]; intros writer; simpl;
    try (split; [done|]; try done; by intros ? [= <-]).
  unfold mbind, Py_bind.
  pose proof (read_sql_reads_only ("SELECT * FROM " +:+ name) conn fs) as Hread.
  destruct (excel_export.read_sql _ _ conn fs) as [[dft|e] fs1];
    simpl in Hread; subst fs1; [|done].
  unfold lift.
  destruct (to_excel dft writer name false) as [writer1|e] eqn:Hsheet; [|done].
  destruct (IH writer1) as [Hfs Hpath].
  split; [done|]. intros writer' Hrun.
  rewrite (Hpath writer' Hrun). by eapply to_excel_path.
Qed.

Lemma save_writes_path writer : along (files_kept (λ n, n = path writer)) (save writer).
Proof.
  intros fs n c Hn Hout. unfold save.
  destruct (fs !! path writer) as [[cx|]|]; simpl; [|done|];
    by rewrite lookup_insert_ne.
Qed.

Lemma export_day_keeps_files day :
  along (files_kept (λ n, n = xlsx_name day)) (export_day day).
Proof.
  intros fs. unfold export_day. unfold mbind at 1, Py_bind at 1.
  pose proof (connect_keeps_files (λ n, n = xlsx_name day) (db_name day) fs) as Hconn.
  destruct (connect (db_name day) fs) as [[conn|e] fs1]; simpl in *; [|done].
  etrans; [exact Hconn|]. unfold mbind at 1, Py_bind at 1.
  pose proof (read_sql_reads_only list_tables conn fs1) as Hread.
  destruct (read_sql list_tables conn fs1) as [[df|e] fs2]; simpl in *; subst fs2;
    [|reflexivity].
  unfold mbind at 1, Py_bind at 1, lift.
  destruct (getitem df "name") as [names|e]; simpl; [|reflexivity].
  unfold mbind, Py_bind.
  destruct (table_loop_reads_only conn names
              {| path := xlsx_name day; book := [] |} fs1) as [Hloop Hpath].
  destruct (table_loop conn names _ fs1) as [[writer|e] fs2]; simpl in *; subst fs2;
    [|reflexivity].
  pose proof (save_writes_path writer fs1) as Hsave.
  by rewrite (Hpath writer eq_refl) in Hsave.
Qed.

(** X2. Whatever the directory holds and however the run ends, the script
    leaves every regular file alone whose name is not the output name of a
    listed interval: it is still there with the content it had. Databases in
    particular are never changed. *)
Theorem export_keeps_other_files num_days (fs : gmap string Entry) n c :
  fs !! n = Some (File c) →
  (∀ d, d ∈ num_days → n ≠ xlsx_name d) →
  (main num_days fs).2 !! n = Some (File c).
Proof.
  intros Hn Hout.
  set (outputs := λ n : string, ∃ d, d ∈ num_days ∧ n = xlsx_name d).
  assert (along (files_kept outputs) (main num_days)) as Hmain.
  { unfold main, remove_files.
    apply along_bind; [apply _| |intros _].
    - apply along_bind; [apply _|apply along_gets; apply _|]. intros fs0.
      apply along_for_each_in; [apply _|]. intros name _. apply rmtree_keeps_files.
    - apply along_for_each_in; [apply _|]. intros d Hd fs0.
      eapply files_kept_weaken; [|apply export_day_keeps_files].
      intros m ->. by exists d. }
  apply (Hmain fs n c Hn). intros (d & Hd & ->). by eapply Hout.
Qed.

(** *** The removal loop on directories *)

Lemma rmtree_loop_directories (names : list string) (fs : gmap string Entry) :
  NoDup names →
  (∀ n, n ∈ names → fs !! n = Some Directory) →
  ∃ fs', for_each names rmtree fs = (Ok tt, fs')
    ∧ ∀ n, fs' !! n = if decide (n ∈ names) then None else fs !! n.
Proof using Type.
  revert fs. induction names as [|x names IH]; intros fs Hnodup Hdirs.
  { exists fs. split; [done|]. intros n. destruct (decide _) as [Hn|]; [|done].
    by apply not_elem_of_nil in Hn. }
  apply NoDup_cons in Hnodup as [Hx Hnodup].
  simpl. unfold mbind, Py_bind, rmtree at 1. rewrite (Hdirs x) by by left.
  destruct (IH (delete x fs) Hnodup) as (fs' & -> & Hfs').
  { intros n Hn. rewrite lookup_delete_ne by (by intros ->). apply Hdirs. by right. }
  exists fs'. split; [done|]. intros n. rewrite Hfs'.
  destruct (decide (n = x)) as [->|Hne].
  - destruct (decide (x ∈ x :: names)) as [_|Hno]; [|by destruct Hno; left].
    destruct (decide (x ∈ names)); [done|]. apply lookup_delete_eq.
  - rewrite lookup_delete_ne by done.
    destruct (decide (n ∈ names)) as [Hin|Hout],
      (decide (n ∈ x :: names)) as [Hin'|Hout']; try done.
    + destruct Hout'. by right.
    + apply elem_of_cons in Hin' as [?|?]; done.
Qed.

(** X3. When every entry whose name matches the output pattern is a
    directory, the removal loop completes: exactly the matching entries are
    gone and every other entry is as it was. *)
Theorem remove_files_removes_directories (fs : gmap string Entry) :
  (∀ n, n ∈ glob output_pattern fs → fs !! n = Some Directory) →
  ∃ fs', remove_files fs = (Ok tt, fs')
    ∧ ∀ n, fs' !! n = if glob_match output_pattern n then None else fs !! n.
Proof using Type.
  intros Hdirs.
  destruct (rmtree_loop_directories (glob output_pattern fs) fs (NoDup_glob _ _) Hdirs)
    as (fs' & Hrun & Hfs').
  exists fs'. split.
  - unfold remove_files. unfold mbind, Py_bind, gets. by fold output_pattern.
  - intros n. rewrite Hfs'.
    destruct (decide (n ∈ glob output_pattern fs)) as [Hn|Hn].
    + apply elem_of_glob in Hn as [-> _]. done.
    + destruct (glob_match output_pattern n) eqn:Hmatch; [|done].
      destruct (fs !! n) eqn:Hfs; [|done].
      exfalso. apply Hn, elem_of_glob. by rewrite Hfs.
Qed.

(** *** Names *)

Lemma db_name_inj d d' : db_name d = db_name d' → d = d'.
Proof.
  unfold db_name. intros Heq.
  apply (inj (String.app "fangraph_")), string_app_inv_tail in Heq.
  by apply (inj pretty) in Heq.
Qed.

(** X4. The names the script derives from an interval tell intervals
    apart: two intervals share an output name, or a database name, only when
    they are the same interval, and no output name is a database name. *)
Theorem interval_names_apart d d' :
  (xlsx_name d = xlsx_name d' ↔ d = d')
  ∧ (db_name d = db_name d' ↔ d = d')
  ∧ xlsx_name d ≠ db_name d'.
Proof.
  split; [|split].
  - split; [apply xlsx_name_inj|by intros ->].
  - split; [apply db_name_inj|by intros ->].
  - apply xlsx_name_not_db_name.
Qed.

(** *** Intervals whose database is missing or is not a database *)

(** X5. An interval without a database file does not stop the run:
    connecting creates an empty database under the database name, and the
    interval's workbook is written with the single empty sheet of a workbook
    without tables. *)
Theorem missing_database_is_created day (fs : gmap string Entry) :
  fs !! db_name day = None →
  fs !! xlsx_name day ≠ Some Directory →
  export_day day fs
  = (Ok tt, <[xlsx_name day := File (Workbook [ {| sheet_name := "Sheet1"; cells := [] |} ])]>
              (<[db_name day := File (Database [])]> fs)).
Proof.
  intros Hdb Hout. unfold excel_export.export_day.
  unfold mbind at 1, Py_bind, connect. rewrite Hdb.
  unfold mbind at 1, Py_bind.
  rewrite (read_sql_list_tables execute _ _ []) by apply lookup_insert_eq.
  unfold mbind, Py_bind, lift, getitem, save. simpl.
  rewrite lookup_insert_ne by apply not_eq_sym, xlsx_name_not_db_name.
  by destruct (fs !! xlsx_name day) as [[?|]|].
Qed.




End export_more.

(** ** The window *)

Section window_more.
Import pd gui.
Variable read_csv : string → result DataFrame.
Variable str_frame : DataFrame → string.
Variable np_sum : list float → float.

Local Abbreviation grp1_avg := (gui.grp1_avg np_sum).
Local Abbreviation grp2_avg := (gui.grp2_avg np_sum).
Local Abbreviation selected_rows_changed := (gui.selected_rows_changed str_frame np_sum).
Local Abbreviation clear_selection := (gui.clear_selection str_frame np_sum).
Local Abbreviation emit_selectionChanged := (gui.emit_selectionChanged str_frame np_sum).
Local Abbreviation import_dialog := (gui.import_dialog read_csv).
Local Abbreviation __init__ := (gui.__init__ read_csv).
Local Abbreviation user_selects := (gui.user_selects str_frame np_sum).
Local Abbreviation dispatch := (gui.dispatch read_csv str_frame np_sum).
Local Abbreviation reachable := (gui.reachable read_csv str_frame np_sum).
Local Abbreviation session := (gui.session read_csv str_frame np_sum).
Local Abbreviation report_current := (report_current str_frame np_sum).

(** *** Reading the selection *)

Lemma picked_lookup df idx k i :
  idx !! k = Some i → i < len df → rows (picked df idx) !! k = rows df !! i.
Proof.
  intros Hk Hi. unfold picked. simpl. rewrite list_lookup_fmap, Hk. simpl.
  by destruct (lookup_lt_is_Some_2 (rows df) i Hi) as [r ->].
Qed.

(** X7. With a frame loaded and a selection stored, [selection()] leaves
    the window as it is. When every stored position is a row of the frame it
    returns a frame with the same columns and one row for each stored
    position, in the order of the list, repeats included; when one is not,
    [selection()] and both averages raise [IndexError]. *)
Theorem selection_picks_rows w df idx :
  _dataframe w = Some (a_DataFrame df) →
  _selection_indexes w = Some idx →
  (Forall (λ i, i < len df) idx →
     ∃ sel, selection w = (Ok sel, w)
       ∧ columns sel = columns df
       ∧ len sel = length idx
       ∧ ∀ k i, idx !! k = Some i → rows sel !! k = rows df !! i)
  ∧ (¬ Forall (λ i, i < len df) idx →
     selection w = (Raise IndexError, w)
     ∧ grp1_avg w = (Raise IndexError, w)
     ∧ grp2_avg w = (Raise IndexError, w)).
Proof.
  intros Hdf Hidx. split.
  - intros Hin. exists (picked df idx).
    unfold selection. py_simpl. rewrite Hdf. simpl. rewrite Hidx. simpl.
    rewrite (iloc_in_range df idx Hin). repeat split.
    + unfold len, picked. simpl. by rewrite length_fmap.
    + intros k i Hk. apply picked_lookup; [done|].
      by apply (proj1 (Forall_lookup _ _) Hin k i).
  - intros Hout. unfold grp1_avg, grp2_avg, selection. py_simpl.
    rewrite Hdf. simpl. rewrite Hidx. simpl.
    by rewrite (iloc_out_of_range df idx Hout).
Qed.

(** *** A summary that fails *)

(** The handler on a frame and a selection inside it: it returns when the
    summary can be computed, and otherwise raises what the summary raises,
    after the selection has been stored and shown in the status line. *)
Lemma selected_rows_changed_window w df :
  _dataframe w = Some (a_DataFrame df) →
  Forall (λ ix, row ix < len df) (selectedIndexes (table_widget w)) →
  selected_rows_changed w
  = match summary_of np_sum df (elements (selected_row_set w)) with
    | Ok (sel, a1, a2) =>
        (Ok tt, summary_window (str_frame sel) a1 a2 (elements (selected_row_set w)) w)
    | Raise e =>
        (Raise e,
         interrupted_window (str_frame (picked df (elements (selected_row_set w))))
           (elements (selected_row_set w)) w)
    end.
Proof.
  intros Hdf Hin%selected_row_set_in_range. revert Hin.
  unfold selected_row_set, gui.selected_rows_changed, grp1_avg, grp2_avg,
    selection, display_results, print, summary_of, interrupted_window.
  py_simpl.
  generalize (elements (list_to_set (row <$> selectedIndexes (table_widget w)) : gset nat)).
  intros idx Hin. rewrite Hdf. simpl.
  pose proof (iloc_in_range df idx Hin) as Hsel. rewrite Hsel. simpl.
  destruct (getitem (picked df idx) "Group_1") as [s1|e] eqn:H1; simpl;
    [|by repeat (simpl; rewrite ?Hdf, ?Hsel, ?H1)].
  destruct (mean np_sum s1) as [a1|e] eqn:Hm1; simpl;
    [|by repeat (simpl; rewrite ?Hdf, ?Hsel, ?H1, ?Hm1)].
  destruct (getitem (picked df idx) "Group_2") as [s2|e] eqn:H2; simpl;
    [|by repeat (simpl; rewrite ?Hdf, ?Hsel, ?H1, ?Hm1, ?H2)].
  destruct (mean np_sum s2) as [a2|e] eqn:Hm2; simpl;
    by repeat (simpl; rewrite ?Hdf, ?Hsel, ?H1, ?Hm1, ?H2, ?Hm2).
Qed.

Lemma summary_of_Raise df idx e :
  Forall (λ i, i < len df) idx →
  summary_of np_sum df idx = Raise e → e = KeyError ∨ e = TypeError.
Proof.
  intros Hin. unfold summary_of. rewrite (iloc_in_range df idx Hin). simpl.
  destruct (getitem (picked df idx) "Group_1") as [s1|e1] eqn:H1; simpl;
    [|intros [= <-]; left; by eapply getitem_Raise].
  destruct (mean np_sum s1) as [a1|e1] eqn:Hm1; simpl;
    [|intros [= <-]; right; by eapply mean_Raise].
  destruct (getitem (picked df idx) "Group_2") as [s2|e2] eqn:H2; simpl;
    [|intros [= <-]; left; by eapply getitem_Raise].
  destruct (mean np_sum s2) as [a2|e2] eqn:Hm2; simpl; [done|].
  intros [= <-]; right; by eapply mean_Raise.
Qed.

Lemma summary_of_no_group_1 df idx :
  Forall (λ i, i < len df) idx →
  "Group_1" ∉ columns df → summary_of np_sum df idx = Raise KeyError.
Proof.
  intros Hin Hcol. unfold summary_of. rewrite (iloc_in_range df idx Hin). simpl.
  destruct (getitem (picked df idx) "Group_1") as [s1|e1] eqn:H1; simpl.
  - by apply getitem_Ok_inv in H1.
  - by rewrite (getitem_Raise _ _ _ H1).
Qed.

(** X8. The handler, run on a loaded frame with the view's selection
    inside it, can fail only with [KeyError] or [TypeError], and does fail
    with [KeyError] when the frame has no column Group_1. When it fails,
    the new selection is already stored, printed and shown in the status
    line, and the results area still holds the report it held before. *)
Theorem failed_summary_keeps_report w df :
  _dataframe w = Some (a_DataFrame df) →
  Forall (λ ix, row ix < len df) (selectedIndexes (table_widget w)) →
  (∀ e w', selected_rows_changed w = (Raise e, w') →
     (e = KeyError ∨ e = TypeError)
     ∧ _selection_indexes w' = Some (elements (selected_row_set w))
     ∧ status_bar w' = "Selected Rows: " ++ str_list (elements (selected_row_set w))
     ∧ results_widget w' = results_widget w
     ∧ outside_summary w' = outside_summary w)
  ∧ ("Group_1" ∉ columns df → (selected_rows_changed w).1 = Raise KeyError).
Proof.
  intros Hdf Hin. rewrite (selected_rows_changed_window w df Hdf Hin).
  pose proof (selected_row_set_in_range w df Hin) as Hidx.
  split.
  - intros e w'.
    destruct (summary_of np_sum df _) as [[[sel a1] a2]|e'] eqn:Hsum; [done|].
    intros [= -> <-]. split; [by eapply summary_of_Raise|done].
  - intros Hcol. by rewrite (summary_of_no_group_1 df _ Hidx Hcol).
Qed.

(** *** What each event does to a window of a session *)

Lemma summary_of_Ok_picked df idx sel a1 a2 :
  Forall (λ i, i < len df) idx →
  summary_of np_sum df idx = Ok (sel, a1, a2) → sel = picked df idx.
Proof.
  intros Hin. unfold summary_of. rewrite (iloc_in_range df idx Hin). simpl.
  destruct (getitem (picked df idx) "Group_1") as [s1|]; simpl; [|done].
  destruct (mean np_sum s1) as [b1|]; simpl; [|done].
  destruct (getitem (picked df idx) "Group_2") as [s2|]; simpl; [|done].
  destruct (mean np_sum s2) as [b2|]; simpl; [|done].
  by intros [= <- _ _].
Qed.

(** An import that succeeds, field by field. *)
Lemma import_dialog_window f df w :
  read_csv f = Ok df →
  import_dialog (Some f) w
  = (Ok tt,
     write_stdout ("Loaded: '" ++ f ++ "'")
       (with_table_widget (λ _, loaded_view df)
          (set__dataframe (a_DataFrame df)
             (write_stdout "Reading CSV data into pandas dataframe..."
                (set__file (Some f)
                   (write_stdout "Getting User File Selection..." w)))))).
Proof.
  intros Hread.
  unfold gui.import_dialog, gui.import_data, load_dataframe, print.
  py_simpl. rewrite Hread. reflexivity.
Qed.

(** The clear action on a window whose view and dataframe agree. *)
Lemma clear_selection_window w :
  consistent w →
  clear_selection w
  = (Ok tt,
     write_stdout "Selection Cleared"
       (setText ""
          match selectedIndexes (table_widget w), model (table_widget w) with
          | _ :: _, Some m =>
              summary_window (str_frame (picked m [])) NaN NaN []
                (with_table_widget (set_selectedIndexes []) (set__selected_rows [] w))
          | _, _ => set__selected_rows [] w
          end)).
Proof.
  unfold consistent. intros Hw.
  unfold gui.clear_selection, gui.clearSelection, display_results, print.
  py_simpl.
  destruct (selectedIndexes (table_widget w)) as [|ix sel] eqn:Hsel; simpl; [done|].
  destruct (model (table_widget w)) as [m|]; [|done].
  destruct Hw as (Hdf & Hslots & _ & Hcols).
  destruct Hcols as [H1 H2]; [done|].
  unfold gui.emit_selectionChanged. py_simpl. rewrite Hslots. simpl. py_simpl.
  match goal with
  | |- context [gui.selected_rows_changed str_frame np_sum ?w1] =>
      rewrite (selected_rows_changed_nothing str_frame np_sum w1 m Hdf eq_refl H1 H2)
  end.
  reflexivity.
Qed.

(** A selection event that changes the view's selection runs the handler
    on the new selection. *)
Lemma user_selects_window rs w m :
  consistent w →
  model (table_widget w) = Some m →
  cells_of m rs ≠ selectedIndexes (table_widget w) →
  user_selects rs w
  = match summary_of np_sum m (elements (list_to_set (row <$> cells_of m rs) : gset nat)) with
    | Ok (sel, a1, a2) =>
        (Ok tt,
         summary_window (str_frame sel) a1 a2
           (elements (list_to_set (row <$> cells_of m rs) : gset nat))
           (with_table_widget (set_selectedIndexes (cells_of m rs)) w))
    | Raise e =>
        (Raise e,
         interrupted_window
           (str_frame (picked m (elements (list_to_set (row <$> cells_of m rs) : gset nat))))
           (elements (list_to_set (row <$> cells_of m rs) : gset nat))
           (with_table_widget (set_selectedIndexes (cells_of m rs)) w))
    end.
Proof.
  unfold consistent, gui.user_selects. intros Hw Hm Hnew. rewrite Hm in *.
  destruct Hw as (Hdf & Hslots & _ & _).
  rewrite decide_False by done.
  unfold gui.emit_selectionChanged. py_simpl. rewrite Hslots. simpl. py_simpl.
  rewrite (selected_rows_changed_window
             (with_table_widget (set_selectedIndexes (cells_of m rs)) w) m Hdf
             (cells_of_in_range m rs)).
  unfold selected_row_set. simpl.
  by destruct (summary_of np_sum m _) as [[[sel a1] a2]|e].
Qed.

(** What holds of every window of a session, beyond [consistent]. *)
Lemma in_step_init file w :
  __init__ file setupUI = (Ok tt, w) →
  shows_dataset w ∧ status_describes_selection w
  ∧ selectedIndexes (table_widget w) = [].
Proof.
  unfold gui.__init__, gui.import_data, load_dataframe, print. py_simpl.
  destruct file as [f|]; simpl.
  - destruct (read_csv f) as [df|e]; simpl; [|done]. by intros [= <-].
  - by intros [= <-].
Qed.

Lemma in_step_dispatch e w w' :
  consistent w →
  shows_dataset w ∧ status_describes_selection w
  ∧ (selectedIndexes (table_widget w) ≠ [] → report_current w) →
  dispatch e w = (Ok tt, w') →
  shows_dataset w' ∧ status_describes_selection w'
  ∧ (selectedIndexes (table_widget w') ≠ [] → report_current w').
Proof.
  intros Hw (Hshow & Hstatus & Hreport). destruct e as [[f|]| |rs]; simpl.
  - destruct (read_csv f) as [df|e] eqn:Hread.
    + rewrite (import_dialog_window f df w Hread). intros [= <-].
      by repeat split.
    + destruct (import_dialog_Raise read_csv f e w Hread) as (w1 & -> & _). done.
  - rewrite import_dialog_dismissed. intros [= <-]. by repeat split.
  - rewrite (clear_selection_window w Hw). intros [= <-].
    unfold consistent in Hw.
    destruct (selectedIndexes (table_widget w)) as [|ix sel] eqn:Hsel.
    { repeat split; [done..|]. simpl. by rewrite Hsel. }
    destruct (model (table_widget w)) as [m|] eqn:Hm; [|done].
    split; [|split]; [|done..].
    unfold shows_dataset in *. simpl. by rewrite Hm, <- Hshow.
  - pose proof Hw as Hw'. unfold consistent in Hw'. unfold gui.user_selects at 1.
    destruct (model (table_widget w)) as [m|] eqn:Hm.
    2:{ intros [= <-]. by repeat split. }
    simpl. destruct (decide (cells_of m rs = _)) as [Hsame|Hnew].
    { intros [= <-]. by repeat split. }
    fold (with_table_widget (set_selectedIndexes (cells_of m rs)) w).
    intros Hrun.
    assert (user_selects rs w = (Ok tt, w')) as Hrun'.
    { unfold gui.user_selects. rewrite Hm. simpl. by rewrite decide_False by done. }
    rewrite (user_selects_window rs w m Hw Hm Hnew) in Hrun'.
    destruct Hw' as (Hdf & _).
    assert (Forall (λ i, i < len m)
              (elements (list_to_set (row <$> cells_of m rs) : gset nat))) as Hin.
    { apply (selected_row_set_in_range
               (with_table_widget (set_selectedIndexes (cells_of m rs)) w) m).
      apply cells_of_in_range. }
    destruct (summary_of np_sum m _) as [[[sel a1] a2]|e] eqn:Hsum; [|done].
    injection Hrun' as <-.
    apply (summary_of_Ok_picked _ _ _ _ _ Hin) in Hsum as Hsel. subst sel.
    split; [|split].
    + unfold shows_dataset in *. simpl. by rewrite Hm, Hdf.
    + done.
    + intros _. exists m, a1, a2. unfold selected_row_set. simpl. by rewrite Hdf.
Qed.

Lemma reachable_in_step w :
  reachable w →
  shows_dataset w ∧ status_describes_selection w
  ∧ (selectedIndexes (table_widget w) ≠ [] → report_current w).
Proof.
  induction 1 as [file w Hinit|e w w' Hw IH Hstep].
  - destruct (in_step_init file w Hinit) as (? & ? & Hsel).
    repeat split; [done..|]. by rewrite Hsel.
  - eapply in_step_dispatch; [|exact IH|exact Hstep].
    by apply (reachable_consistent read_csv str_frame np_sum).
Qed.

(** *** What no session does *)

Lemma init_quiet file : quiet (__init__ file setupUI).2.
Proof.
  unfold gui.__init__, gui.import_data, load_dataframe, print. py_simpl.
  destruct file as [f|]; simpl; [|done].
  by destruct (read_csv f) as [df|e].
Qed.

Lemma dispatch_quiet e w : quiet w → quiet (dispatch e w).2.
Proof.
  unfold quiet. intros [Herr Hdf]. destruct e as [[f|]| |rs]; unfold gui.dispatch.
  - destruct (read_csv f) as [df|e] eqn:Hread.
    + by rewrite (import_dialog_window f df w Hread).
    + destruct (import_dialog_Raise read_csv f e w Hread)
        as (w1 & -> & _ & Hdf' & _ & _ & _ & _ & _ & Herr').
      simpl. by rewrite Hdf', Herr'.
  - by rewrite import_dialog_dismissed.
  - assert (keeps (λ w, (_dataframe w, error_dialog w)) clear_selection) as Hkeep.
    { assert (keeps (λ w, (_dataframe w, error_dialog w)) selected_rows_changed)
        by (unfold gui.selected_rows_changed, grp1_avg, grp2_avg, selection,
              display_results, print; frame).
      unfold gui.clear_selection, gui.clearSelection, gui.emit_selectionChanged,
        gui.run_slot, display_results, print. frame. }
    injection (Hkeep w) as -> ->. done.
  - assert (keeps (λ w, (_dataframe w, error_dialog w)) (user_selects rs)) as Hkeep.
    { assert (keeps (λ w, (_dataframe w, error_dialog w)) emit_selectionChanged) as Hemit.
      { assert (keeps (λ w, (_dataframe w, error_dialog w)) selected_rows_changed)
          by (unfold gui.selected_rows_changed, grp1_avg, grp2_avg, selection,
                display_results, print; frame).
        unfold gui.emit_selectionChanged, gui.run_slot. frame. }
      intros w0. unfold gui.user_selects.
      destruct (model (table_widget w0)) as [m|]; [|done].
      destruct (decide _); [done|].
      apply (keeps_bind (λ w, (_dataframe w, error_dialog w))
               (modify (with_table_widget (set_selectedIndexes (cells_of m rs))))
               (λ _, emit_selectionChanged)); [|done].
      by apply keeps_modify. }
    injection (Hkeep w) as -> ->. done.
Qed.

Lemma for_each_dispatch_quiet es w : quiet w → quiet (for_each es dispatch w).2.
Proof.
  revert w. induction es as [|e es IH]; intros w Hw; [done|].
  simpl. unfold mbind, Py_bind.
  pose proof (dispatch_quiet e w Hw) as Hstep.
  destruct (dispatch e w) as [[[]|err] w1]; [|done]. by apply IH.
Qed.

(** X9. Whatever file the program is started with and whatever the user
    does, and whether or not the run ends in an exception, the program never
    shows its error dialog, and [_dataframe] never holds anything but a
    DataFrame: the branch of [load_dataframe] that shows [No data loaded!]
    is not taken in any session. *)
Theorem session_never_warns file es :
  error_dialog (session file es).2 = []
  ∧ _dataframe (session file es).2 ≠ Some an_object.
Proof.
  unfold gui.session, mbind, Py_bind.
  pose proof (init_quiet file) as Hinit.
  destruct (__init__ file setupUI) as [[[]|err] w0]; [|done].
  by apply for_each_dispatch_quiet.
Qed.

Lemma reachable_quiet w : reachable w → quiet w.
Proof.
  induction 1 as [file w Hinit|e w w' _ IH Hstep].
  - pose proof (init_quiet file) as Hq. by rewrite Hinit in Hq.
  - pose proof (dispatch_quiet e w IH) as Hq. by rewrite Hstep in Hq.
Qed.

(** *** What every window of a session shows *)

(** X10. In every window of a session the table view shows exactly the
    loaded dataframe: it has no model while no file has been imported, and
    after the latest import its model is the frame [_dataframe] holds, with
    the selection handler connected once, however many imports came
    before. *)
Theorem view_shows_dataset w :
  reachable w →
  match _dataframe w with
  | None => model (table_widget w) = None
  | Some (a_DataFrame df) =>
      model (table_widget w) = Some df
      ∧ selectionChanged (table_widget w) = [slot_selected_rows_changed]
  | Some an_object => False
  end.
Proof.
  intros Hw.
  pose proof (reachable_consistent read_csv str_frame np_sum w Hw) as Hcons.
  destruct (reachable_in_step w Hw) as (Hshow & _).
  destruct (reachable_quiet w Hw) as [_ Hobj].
  unfold shows_dataset in Hshow. unfold consistent in Hcons.
  destruct (_dataframe w) as [[df|]|] eqn:Hdf; [|done..].
  rewrite Hshow in *. by destruct Hcons as (_ & ? & _).
Qed.

(** X11. In every window of a session the status line describes the
    stored selection: it is empty while [_selection_indexes] has not been
    assigned, and otherwise reads [Selected Rows: ] followed by the list
    [_selection_indexes] holds, also after an import or a clear action
    that left that list as it was. *)
Theorem status_follows_selection w :
  reachable w →
  match _selection_indexes w with
  | None => status_bar w = ""
  | Some idx => status_bar w = "Selected Rows: " ++ str_list idx
  end.
Proof. intros Hw. by destruct (reachable_in_step w Hw) as (_ & Hstatus & _). Qed.

(** X12. In every window of a session in which rows are highlighted, the
    stored selection lists exactly the highlighted rows, each once, the
    summary of those rows can be computed, and the results area shows that
    summary: the rendering of the picked rows and the two averages that
    [grp1_avg] and [grp2_avg] return. *)
Theorem report_follows_selection w :
  reachable w →
  selectedIndexes (table_widget w) ≠ [] →
  ∃ df a1 a2,
    _dataframe w = Some (a_DataFrame df)
    ∧ _selection_indexes w = Some (elements (selected_row_set w))
    ∧ grp1_avg w = (Ok a1, w)
    ∧ grp2_avg w = (Ok a2, w)
    ∧ results_widget w
      = summary_text (str_frame (picked df (elements (selected_row_set w)))) a1 a2.
Proof.
  intros Hw Hsel.
  destruct (reachable_in_step w Hw) as (_ & _ & Hreport).
  destruct (Hreport Hsel) as (df & a1 & a2 & Hdf & Hidx & Hsum & Htext).
  exists df, a1, a2. repeat (split; [done|]). split; [|split; [|done]].
  - unfold grp1_avg. rewrite (avg_runs_mean np_sum "Group_1" w df _ Hdf Hidx).
    revert Hsum. unfold summary_of.
    destruct (iloc df _) as [sel|]; simpl; [|done].
    destruct (getitem sel "Group_1") as [s1|]; simpl; [|done].
    destruct (mean np_sum s1) as [b1|]; simpl; [|done].
    destruct (getitem sel "Group_2") as [s2|]; simpl; [|done].
    destruct (mean np_sum s2) as [b2|]; simpl; [|done].
    by intros [= _ -> _].
  - unfold grp2_avg. rewrite (avg_runs_mean np_sum "Group_2" w df _ Hdf Hidx).
    revert Hsum. unfold summary_of.
    destruct (iloc df _) as [sel|]; simpl; [|done].
    destruct (getitem sel "Group_1") as [s1|]; simpl; [|done].
    destruct (mean np_sum s1) as [b1|]; simpl; [|done].
    destruct (getitem sel "Group_2") as [s2|]; simpl; [|done].
    destruct (mean np_sum s2) as [b2|]; simpl; [|done].
    by intros [= _ _ ->].
Qed.

(** *** Starting with a file *)

(** X13. Starting the program with a file that can be read gives the
    window that starting it without a file and importing that file through
    the dialog gives: the two differ in what was printed only. *)
Theorem preload_is_import f df :
  read_csv f = Ok df →
  ∃ w1 w0 w2,
    __init__ (Some f) setupUI = (Ok tt, w1)
    ∧ __init__ None setupUI = (Ok tt, w0)
    ∧ import_dialog (Some f) w0 = (Ok tt, w2)
    ∧ apart_from_stdout w1 = apart_from_stdout w2.
Proof.
  intros Hread. do 3 eexists. split; [|split; [|split]].
  - unfold gui.__init__, gui.import_data, load_dataframe, print. py_simpl.
    rewrite Hread. reflexivity.
  - reflexivity.
  - apply (import_dialog_window f df _ Hread).
  - reflexivity.
Qed.

End window_more.

(** ** The table model *)

Section model_facts.
Import pd gui gui.PandasModel.
Variable str_cell : Cell → string.
Variable str_index : DataFrame → nat → string.

Local Abbreviation data := (gui.PandasModel.data str_cell).
Local Abbreviation headerData := (gui.PandasModel.headerData str_index).

Lemma iloc_cell_inside df r c :
  r < len df → c < length (columns df) →
  ∃ line, rows df !! r = Some line ∧ iloc_cell df r c = Ok (cell_at c line).
Proof.
  intros Hr Hc. destruct (lookup_lt_is_Some_2 (rows df) r Hr) as [line Hline].
  exists line. split; [done|]. unfold iloc_cell. rewrite Hline.
  by rewrite decide_True by done.
Qed.

Lemma iloc_cell_outside df r c :
  ¬ (r < len df ∧ c < length (columns df)) → iloc_cell df r c = Raise IndexError.
Proof.
  intros Hout. unfold iloc_cell.
  destruct (rows df !! r) as [line|] eqn:Hline; [|done].
  destruct (decide (c < length (columns df))) as [Hc|]; [|done].
  destruct Hout. split; [|done]. by apply lookup_lt_Some in Hline.
Qed.

(** X14. The model answers for every cell and header inside the counts it
    reports, and for nothing beyond them: with the row and column counts it
    gives for the top level, the display text of a cell is returned when its
    row and column are below the counts and [IndexError] is raised when
    they are not; below the counts the horizontal header is the name of the
    column and the vertical header the text of the row's index label, and
    beyond them both raise [IndexError]; for any role but the display role
    a cell and a header have no data. *)
Theorem model_answers_inside_counts df nrows ncols :
  rowCount df None = Some nrows →
  columnCount df None = Some ncols →
  (∀ r c, r < nrows → c < ncols →
     ∃ text, data df (Some {| row := r; column := c |}) DisplayRole = Ok (Some text))
  ∧ (∀ r c, ¬ (r < nrows ∧ c < ncols) →
       data df (Some {| row := r; column := c |}) DisplayRole = Raise IndexError)
  ∧ (∀ c, c < ncols →
       ∃ name, headerData df c Horizontal DisplayRole = Ok (Some name)
         ∧ columns df !! c = Some name)
  ∧ (∀ c, ¬ c < ncols → headerData df c Horizontal DisplayRole = Raise IndexError)
  ∧ (∀ r, r < nrows →
       headerData df r Vertical DisplayRole = Ok (Some (str_index df r)))
  ∧ (∀ r, ¬ r < nrows → headerData df r Vertical DisplayRole = Raise IndexError)
  ∧ (∀ ix role, role ≠ DisplayRole → data df ix role = Ok None)
  ∧ (∀ section o role, role ≠ DisplayRole → headerData df section o role = Ok None).
Proof.
  intros [= <-] [= <-]. repeat split.
  - intros r c Hr Hc. destruct (iloc_cell_inside df r c Hr Hc) as (line & _ & Hcell).
    eexists. unfold gui.PandasModel.data. simpl. by rewrite Hcell.
  - intros r c Hout. unfold gui.PandasModel.data. simpl.
    by rewrite (iloc_cell_outside df r c Hout).
  - intros c Hc. destruct (lookup_lt_is_Some_2 (columns df) c Hc) as [name Hname].
    exists name. unfold gui.PandasModel.headerData. by rewrite Hname.
  - intros c Hc. unfold gui.PandasModel.headerData.
    destruct (columns df !! c) as [name|] eqn:Hname; [|done].
    by apply lookup_lt_Some in Hname.
  - intros r Hr. unfold gui.PandasModel.headerData. by rewrite decide_True by done.
  - intros r Hr. unfold gui.PandasModel.headerData. by rewrite decide_False by done.
  - intros [ix|] role Hrole; [|done]. by destruct role.
  - intros section o role Hrole. by destruct role.
Qed.

(** X15. The table and the averages read the same cells: in a frame whose
    column names differ, the text the model gives for row [r] under the
    header [name] is the text of the value that [df[name]], the column the
    averages are computed from, holds at position [r]. *)
Theorem model_shows_column_values df name r c :
  NoDup (columns df) →
  columns df !! c = Some name →
  r < len df →
  ∃ s v,
    getitem df name = Ok s
    ∧ s !! r = Some v
    ∧ headerData df c Horizontal DisplayRole = Ok (Some name)
    ∧ data df (Some {| row := r; column := c |}) DisplayRole = Ok (Some (str_cell v)).
Proof.
  intros Hnodup Hname Hr.
  assert (list_find (λ x, x = name) (columns df) = Some (c, name)) as Hfind.
  { apply list_find_Some. repeat split; [done..|].
    intros j y Hy Hj ->.
    pose proof (NoDup_lookup _ _ _ _ Hnodup Hy Hname). lia. }
  destruct (iloc_cell_inside df r c Hr) as (line & Hline & Hcell).
  { by apply lookup_lt_Some in Hname. }
  exists (cell_at c <$> rows df), (cell_at c line). repeat split.
  - unfold getitem. by rewrite Hfind.
  - by rewrite list_lookup_fmap, Hline.
  - unfold gui.PandasModel.headerData. by rewrite Hname.
  - unfold gui.PandasModel.data. simpl. by rewrite Hcell.
Qed.

End model_facts.

(** ** Sessions and windows of the scenario, continued *)

Section more_export_scenarios.
Import pd excel_export.

Local Abbreviation export_day := (excel_export.export_day scenario_sqlite).
Local Abbreviation main := (excel_export.main scenario_sqlite).

Lemma export_keeps_database_scenario :
  (main [7%Z] before_second_run).2 !! db_name 7 = before_second_run !! db_name 7.
Proof.
  assert (∃ c, before_second_run !! db_name 7 = Some (File c)) as [c Hc]
    by (eexists; by vm_compute).
  rewrite Hc.
  apply (export_keeps_other_files scenario_sqlite [7%Z] before_second_run (db_name 7) c Hc).
  intros d _. apply not_eq_sym, xlsx_name_not_db_name.
Defined.

Lemma remove_files_scenario :
  ∃ fs', remove_files directory_in_the_way = (Ok tt, fs')
    ∧ ∀ n, fs' !! n = if glob_match output_pattern n then None
                      else directory_in_the_way !! n.
Proof.
  apply (remove_files_removes_directories directory_in_the_way).
  intros n Hn.
  assert (glob output_pattern directory_in_the_way = ["fangraph_7days.xlsx"]) as Hglob
    by by vm_compute.
  rewrite Hglob in Hn. apply list_elem_of_singleton in Hn as ->. by vm_compute.
Defined.

Lemma missing_database_scenario :
  export_day 8 first_directory
  = (Ok tt, <[xlsx_name 8 := File (Workbook [ {| sheet_name := "Sheet1"; cells := [] |} ])]>
              (<[db_name 8 := File (Database [])]> first_directory)).
Proof.
  apply (missing_database_is_created scenario_sqlite 8 first_directory); by vm_compute.
Defined.


End more_export_scenarios.

Section more_scenarios.
Import pd gui.

Lemma selection_scenario :
  (Forall (λ i, i < len scenario_frame) [2; 0; 2] →
     ∃ sel, selection (window_with scenario_frame [2; 0; 2])
            = (Ok sel, window_with scenario_frame [2; 0; 2])
       ∧ columns sel = columns scenario_frame
       ∧ len sel = length [2; 0; 2]
       ∧ ∀ k i, [2; 0; 2] !! k = Some i → rows sel !! k = rows scenario_frame !! i)
  ∧ (¬ Forall (λ i, i < len scenario_frame) [2; 0; 2] →
     selection (window_with scenario_frame [2; 0; 2])
     = (Raise IndexError, window_with scenario_frame [2; 0; 2])
     ∧ grp1_avg seq_sum (window_with scenario_frame [2; 0; 2])
       = (Raise IndexError, window_with scenario_frame [2; 0; 2])
     ∧ grp2_avg seq_sum (window_with scenario_frame [2; 0; 2])
       = (Raise IndexError, window_with scenario_frame [2; 0; 2])).
Proof.
  apply (selection_picks_rows seq_sum (window_with scenario_frame [2; 0; 2])
           scenario_frame [2; 0; 2]); reflexivity.
Defined.

Lemma reimported_reachable : reachable scenario_disk row_count_text seq_sum reimported.
Proof.
  apply (session_reachable _ _ _ (Some "stats.csv")
           [select_rows [2]; click_import (Some "one.csv")]).
  by vm_compute.
Qed.

Lemma failed_summary_scenario :
  (∀ e w', gui.selected_rows_changed row_count_text seq_sum names_window = (Raise e, w') →
     (e = KeyError ∨ e = TypeError)
     ∧ _selection_indexes w' = Some (elements (selected_row_set names_window))
     ∧ status_bar w'
       = "Selected Rows: " ++ str_list (elements (selected_row_set names_window))
     ∧ results_widget w' = results_widget names_window
     ∧ outside_summary w' = outside_summary names_window)
  ∧ ("Group_1" ∉ columns names_frame →
     (gui.selected_rows_changed row_count_text seq_sum names_window).1 = Raise KeyError).
Proof.
  apply (failed_summary_keeps_report row_count_text seq_sum names_window names_frame).
  - by vm_compute.
  - apply (bool_decide_unpack _). by vm_compute.
Defined.

Lemma status_scenario :
  match _selection_indexes reimported with
  | None => status_bar reimported = ""
  | Some idx => status_bar reimported = "Selected Rows: " ++ str_list idx
  end.
Proof.
  apply (status_follows_selection scenario_disk row_count_text seq_sum reimported).
  apply reimported_reachable.
Defined.

Lemma view_scenario :
  match _dataframe reimported with
  | None => model (table_widget reimported) = None
  | Some (a_DataFrame df) =>
      model (table_widget reimported) = Some df
      ∧ selectionChanged (table_widget reimported) = [slot_selected_rows_changed]
  | Some an_object => False
  end.
Proof.
  apply (view_shows_dataset scenario_disk row_count_text seq_sum reimported).
  apply reimported_reachable.
Defined.

Lemma report_scenario :
  ∃ df a1 a2,
    _dataframe last_row_selected = Some (a_DataFrame df)
    ∧ _selection_indexes last_row_selected
      = Some (elements (selected_row_set last_row_selected))
    ∧ grp1_avg seq_sum last_row_selected = (Ok a1, last_row_selected)
    ∧ grp2_avg seq_sum last_row_selected = (Ok a2, last_row_selected)
    ∧ results_widget last_row_selected
      = summary_text
          (row_count_text (picked df (elements (selected_row_set last_row_selected))))
          a1 a2.
Proof.
  apply (report_follows_selection scenario_disk row_count_text seq_sum last_row_selected).
  - apply last_row_selected_reachable.
  - apply (bool_decide_unpack _). by vm_compute.
Defined.

Lemma preload_scenario :
  ∃ w1 w0 w2,
    __init__ scenario_disk (Some "stats.csv") setupUI = (Ok tt, w1)
    ∧ __init__ scenario_disk None setupUI = (Ok tt, w0)
    ∧ import_dialog scenario_disk (Some "stats.csv") w0 = (Ok tt, w2)
    ∧ apart_from_stdout w1 = apart_from_stdout w2.
Proof.
  apply (preload_is_import scenario_disk "stats.csv" scenario_frame). by vm_compute.
Defined.

Lemma model_counts_scenario :
  (∀ r c, r < 3 → c < 2 →
     ∃ text, gui.PandasModel.data (λ _, "cell") scenario_frame
               (Some {| row := r; column := c |}) gui.PandasModel.DisplayRole
             = Ok (Some text))
  ∧ (∀ r c, ¬ (r < 3 ∧ c < 2) →
       gui.PandasModel.data (λ _, "cell") scenario_frame
         (Some {| row := r; column := c |}) gui.PandasModel.DisplayRole
       = Raise IndexError)
  ∧ (∀ c, c < 2 →
       ∃ name, gui.PandasModel.headerData row_number scenario_frame c gui.PandasModel.Horizontal
                 gui.PandasModel.DisplayRole = Ok (Some name)
         ∧ columns scenario_frame !! c = Some name)
  ∧ (∀ c, ¬ c < 2 →
       gui.PandasModel.headerData row_number scenario_frame c gui.PandasModel.Horizontal
         gui.PandasModel.DisplayRole = Raise IndexError)
  ∧ (∀ r, r < 3 →
       gui.PandasModel.headerData row_number scenario_frame r gui.PandasModel.Vertical
         gui.PandasModel.DisplayRole = Ok (Some (row_number scenario_frame r)))
  ∧ (∀ r, ¬ r < 3 →
       gui.PandasModel.headerData row_number scenario_frame r gui.PandasModel.Vertical
         gui.PandasModel.DisplayRole = Raise IndexError)
  ∧ (∀ ix role, role ≠ gui.PandasModel.DisplayRole →
       gui.PandasModel.data (λ _, "cell") scenario_frame ix role = Ok None)
  ∧ (∀ section o role, role ≠ gui.PandasModel.DisplayRole →
       gui.PandasModel.headerData row_number scenario_frame section o role = Ok None).
Proof.
  apply (model_answers_inside_counts (λ _, "cell") row_number scenario_frame 3 2); reflexivity.
Defined.

Lemma model_column_scenario :
  ∃ s v,
    getitem scenario_frame "Group_2" = Ok s
    ∧ s !! 2 = Some v
    ∧ gui.PandasModel.headerData row_number scenario_frame 1 gui.PandasModel.Horizontal
        gui.PandasModel.DisplayRole = Ok (Some "Group_2")
    ∧ gui.PandasModel.data (λ _, "cell") scenario_frame
        (Some {| row := 2; column := 1 |}) gui.PandasModel.DisplayRole
      = Ok (Some ((λ _, "cell") v)).
Proof.
  apply (model_shows_column_values (λ _, "cell") row_number scenario_frame "Group_2" 2 1).
  - apply (bool_decide_unpack _). by vm_compute.
  - reflexivity.
  - apply (bool_decide_unpack _). by vm_compute.
Defined.

End more_scenarios.
